(** * Upload utility: a shallow embedding of [test.py] and [test2.py]

    The two scripts validate a local file, infer its content type, build the
    destination key and hand the file to the storage client.  Python strings
    are modelled as [string] (the bytes of the UTF-8 text: the characters the
    scripts search for are ASCII, so byte positions and code-point positions
    cut the same text), dictionaries as [gmap], sets as [gset]; the file
    system, the configuration object and the storage client are the fields
    of a [World] record; logging, the upload call and [sys.exit] are the
    effects of a small trace monad.  The library functions the scripts call
    ([pathlib], [posixpath.splitext], [mimetypes.guess_type]) follow CPython
    3.11/3.12 on POSIX. *)

From Stdlib Require Import ZArith Lia Ascii.
From stdpp Require Import base strings gmap list.

Local Open Scope Z_scope.

(** ** Python [str] operations used by the scripts *)

Module str.

(** [len(s)] *)
Definition len (s : string) : Z := Z.of_nat (String.length s).

(** [c.lower()] on one character: only the ASCII capitals have a lower
    form; bytes of a UTF-8 encoded non-ASCII character are kept. *)
Definition lower_char (c : ascii) : ascii :=
  let n := Ascii.N_of_ascii c in
  if ((65 <=? n) && (n <=? 90))%N then Ascii.ascii_of_N (n + 32) else c.

(** [s.lower()] *)
Fixpoint lower (s : string) : string :=
  match s with
  | EmptyString => EmptyString
  | String c s' => String (lower_char c) (lower s')
  end.

(** [s.startswith(c)] for a one-character prefix *)
Definition startswith (s : string) (c : ascii) : bool :=
  match s with
  | String a _ => bool_decide (a = c)
  | EmptyString => false
  end.

(** [s[n:]] and [s[:n]] for a natural [n] *)
Fixpoint drop (n : nat) (s : string) : string :=
  match n, s with
  | O, _ => s
  | S _, EmptyString => EmptyString
  | S n', String _ s' => drop n' s'
  end.

Fixpoint take (n : nat) (s : string) : string :=
  match n, s with
  | O, _ => EmptyString
  | S _, EmptyString => EmptyString
  | S n', String c s' => String c (take n' s')
  end.

(** Python's slice bound: a negative index counts from the end, and the
    result is clamped to [0, len s]. *)
Definition clamp (s : string) (i : Z) : nat :=
  Z.to_nat (Z.min (len s) (Z.max 0 (if i <? 0 then len s + i else i))).

(** [s[i:]] *)
Definition slice_from (s : string) (i : Z) : string := drop (clamp s i) s.

(** [s[:j]] *)
Definition slice_to (s : string) (j : Z) : string := take (clamp s j) s.

(** [s[i:j]] *)
Definition slice (s : string) (i j : Z) : string :=
  take (clamp s j - clamp s i)%nat (drop (clamp s i) s).

(** [s.rfind(c)]: the highest index of [c] in [s], or [-1]. *)
Fixpoint rfind (s : string) (c : ascii) : Z :=
  match s with
  | EmptyString => -1
  | String a s' =>
      let r := rfind s' c in
      if 0 <=? r then r + 1 else if bool_decide (a = c) then 0 else -1
  end.

(** [s.lstrip(c)], [s.rstrip(c)] and [s.strip(c)] for a one-character set *)
Fixpoint lstrip (s : string) (c : ascii) : string :=
  match s with
  | String a s' => if bool_decide (a = c) then lstrip s' c else s
  | EmptyString => EmptyString
  end.

Fixpoint rstrip (s : string) (c : ascii) : string :=
  match s with
  | EmptyString => EmptyString
  | String a s' =>
      match rstrip s' c with
      | EmptyString => if bool_decide (a = c) then EmptyString else String a EmptyString
      | r => String a r
      end
  end.

Definition strip (s : string) (c : ascii) : string := rstrip (lstrip s c) c.

(** [s.split(sep)] for a one-character separator *)
Fixpoint split (s : string) (sep : ascii) : list string :=
  match s with
  | EmptyString => [EmptyString]
  | String a s' =>
      if bool_decide (a = sep) then EmptyString :: split s' sep
      else match split s' sep with
           | x :: r => String a x :: r
           | [] => [String a EmptyString]
           end
  end.

(** [sep.join(l)] *)
Fixpoint join (sep : string) (l : list string) : string :=
  match l with
  | [] => EmptyString
  | [x] => x
  | x :: r => x +:+ sep +:+ join sep r
  end.

(** [s * n] *)
Fixpoint repeat (s : string) (n : nat) : string :=
  match n with
  | O => EmptyString
  | S n' => s +:+ repeat s n'
  end.

(** [c in s] for a character [c] *)
Fixpoint contains (s : string) (c : ascii) : bool :=
  match s with
  | EmptyString => false
  | String a s' => bool_decide (a = c) || contains s' c
  end.

(** [s.endswith(c)] for a one-character suffix *)
Fixpoint endswith (s : string) (c : ascii) : bool :=
  match s with
  | EmptyString => false
  | String a EmptyString => bool_decide (a = c)
  | String _ s' => endswith s' c
  end.

(** Truthiness of a string: [bool(s)] *)
Definition truthy (s : string) : bool :=
  match s with EmptyString => false | _ => true end.

(** Truthiness of [str | None] *)
Definition truthy_opt (o : option string) : bool :=
  match o with Some s => truthy s | None => false end.

(** [a or b] on [str | None] operands *)
Definition or_ (a b : option string) : option string :=
  if truthy_opt a then a else b.

End str.

(** ** [pathlib.PurePosixPath]: parsing, [name], [suffix], [str] *)

Module pathlib.

(** A parsed path: the root (empty, one slash or two slashes) and the
    components after it. *)
Record Path := mkPath { root : string; tail : list string }.

(** [posixpath.splitroot] (the drive is always empty on POSIX) *)
Definition splitroot (p : string) : string * string :=
  if negb (bool_decide (str.slice_to p 1 = "/")) then ("", p)
  else if negb (bool_decide (str.slice p 1 2 = "/")) || bool_decide (str.slice p 2 3 = "/")
       then ("/", str.slice_from p 1)
       else (str.slice_to p 2, str.slice_from p 2).

(** [Path(s)]: [_parse_path] drops the empty and the [.] components. *)
Definition parse (s : string) : Path :=
  if negb (str.truthy s) then mkPath "" []
  else
    let '(rt, rel) := splitroot s in
    mkPath rt (filter (λ x, str.truthy x = true ∧ x ≠ ".") (str.split rel "/")).

(** [str(path)] *)
Definition to_str (p : Path) : string :=
  let s := root p +:+ str.join "/" (tail p) in
  if str.truthy s then s else ".".

(** [path.name]: the last component, or the empty string *)
Definition name (p : Path) : string := List.last (tail p) "".

(** [path.suffix]: the last dot of the name and what follows it, unless
    that dot is the first or the last character of the name. *)
Definition suffix (p : Path) : string :=
  let name := name p in
  let i := str.rfind name "." in
  if (0 <? i) && (i <? str.len name - 1) then str.slice_from name i else "".

End pathlib.

(** ** [posixpath.splitext] and the [mimetypes] registry *)

Module posixpath.

(** The [while filenameIndex < dotIndex] loop of [genericpath._splitext]:
    [n] is the number of indices left before [dotIndex]; the answer is
    [true] when the loop body returns (a character other than the dot is
    found), [false] when the loop runs to its end. *)
Fixpoint skip_leading_dots (p : string) (n : nat) (filenameIndex : Z) : bool :=
  match n with
  | O => false
  | S n' =>
      if negb (bool_decide (str.slice p filenameIndex (filenameIndex + 1) = "."))
      then true
      else skip_leading_dots p n' (filenameIndex + 1)
  end.

(** [posixpath.splitext(p)] *)
Definition splitext (p : string) : string * string :=
  let sepIndex := str.rfind p "/" in
  let dotIndex := str.rfind p "." in
  if (sepIndex <? dotIndex)
     && skip_leading_dots p (Z.to_nat (dotIndex - (sepIndex + 1))) (sepIndex + 1)
  then (str.slice_to p dotIndex, str.slice_from p dotIndex)
  else (p, str.slice_to p 0).

End posixpath.

Module mimetypes.

(** The module constants [_suffix_map_default] and [_encodings_map_default]
    (CPython 3.12); no system file changes them. *)
Definition suffix_map : gmap string string :=
  list_to_map [(".svgz", ".svg.gz"); (".tgz", ".tar.gz"); (".taz", ".tar.gz");
               (".tz", ".tar.gz"); (".tbz2", ".tar.bz2"); (".txz", ".tar.xz")].

Definition encodings_map : gmap string string :=
  list_to_map [(".gz", "gzip"); (".Z", "compress"); (".bz2", "bzip2");
               (".xz", "xz"); (".br", "br")].

(** The process-wide registry: the strict extension→type table.  Its first
    content comes from the interpreter and the system's [mime.types]
    files, so it is a parameter of every run. *)
Record MimeTypes := mkMimeTypes { types_map : gmap string string }.

(** [mimetypes.add_type(type, ext)] *)
Definition add_type (type ext : string) (db : MimeTypes) : MimeTypes :=
  mkMimeTypes (<[ext := type]> (types_map db)).

(** The loop [while ext.lower() in suffix_map: base, ext = splitext(base +
    suffix_map[ext.lower()])], run for at most [rounds] tests of its
    condition. *)
Fixpoint suffix_loop (rounds : nat) (base ext : string) : string * string :=
  match rounds with
  | O => (base, ext)
  | S r =>
      match suffix_map !! str.lower ext with
      | Some repl =>
          let '(base', ext') := posixpath.splitext (base +:+ repl) in
          suffix_loop r base' ext'
      | None => (base, ext)
      end
  end.

(** Every value of [suffix_map] ends in an extension that is no key of it,
    so the second test of the loop condition always fails (lemma
    [suffix_loop_exits] below). *)
Definition suffix_rounds : nat := 2.

(** A [url] in which [urllib.parse] finds no scheme: it starts with a
    slash (every resolved path does) or holds no colon. *)
Definition no_scheme (url : string) : bool :=
  str.startswith url "/" || negb (str.contains url ":").

(** [mimetypes.guess_type(url)] with [strict=True], for a [url] that has
    [no_scheme]: the type and the encoding. *)
Definition guess_type (db : MimeTypes) (url : string) : option string * option string :=
  let '(base, ext) := posixpath.splitext url in
  let '(base, ext) := suffix_loop suffix_rounds base ext in
  let '(encoding, base, ext) :=
    match encodings_map !! ext with
    | Some enc => let '(b, e) := posixpath.splitext base in (Some enc, b, e)
    | None => (None, base, ext)
    end in
  let ext := str.lower ext in
  (types_map db !! ext, encoding).

End mimetypes.

(** ** The world outside the scripts *)

(** [app.config.settings]: the three attributes the scripts read *)
Record Settings := mkSettings {
  AWS_BUCKET_NAME : option string;
  AWS_REGION : string;
  ENVIRONMENT : string
}.

(** What a run depends on and cannot see from the source: the file system
    (path resolution, existence, file-ness), the configuration, the first
    content of the [mimetypes] table, and the storage client, whose
    [upload_file] either returns ([None]) or raises an [Exception] with the
    given text. *)
Record World := mkWorld {
  realpath : string → string;
  path_exists : string → bool;
  path_is_file : string → bool;
  settings : Settings;
  system_types : gmap string string;
  s3_upload_file : string → string → string → gmap string string → option string
}.

(** ** Effects: log lines, the upload call, [sys.exit] *)

Inductive level := INFO | WARNING | ERROR | SUCCESS.

Inductive event :=
| Log (lvl : level) (msg : string)
| UploadFile (Filename Bucket Key : string) (ExtraArgs : gmap string string).

Inductive outcome (A : Type) :=
| Returned (a : A)
| Exited (status : Z).
Arguments Returned {A} a.
Arguments Exited {A} status.

(** A computation: the events it produced, in order, and how it ended. *)
Definition Proc (A : Type) : Type := list event * outcome A.

Definition trace {A} (m : Proc A) : list event := m.1.
Definition result {A} (m : Proc A) : outcome A := m.2.

#[global] Instance Proc_ret : MRet Proc := λ A a, ([], Returned a).

#[global] Instance Proc_bind : MBind Proc := λ A B f m,
  match m with
  | (t, Returned a) => let '(t', o) := f a in (t ++ t', o)
  | (t, Exited n) => (t, Exited n)
  end.

Definition emit (e : event) : Proc unit := ([e], Returned tt).

(** [sys.exit(status)] *)
Definition sys_exit {A} (status : Z) : Proc A := ([], Exited status).

(** An [if] statement without [else] *)
Definition when (b : bool) (body : Proc unit) : Proc unit :=
  if b then body else mret tt.

Module logger.
Definition info (msg : string) : Proc unit := emit (Log INFO msg).
Definition warning (msg : string) : Proc unit := emit (Log WARNING msg).
Definition error (msg : string) : Proc unit := emit (Log ERROR msg).
Definition success (msg : string) : Proc unit := emit (Log SUCCESS msg).
(** [logger.exception]: an error-level record (the traceback it appends
    is not part of the model) *)
Definition exception (msg : string) : Proc unit := emit (Log ERROR msg).
End logger.

(** [Path(s).expanduser().resolve()], in a run where it returns (a symlink
    loop or an unknown home directory raises instead): the world resolves the
    string, and the result is parsed again. *)
Definition resolve (w : World) (local_path : string) : pathlib.Path :=
  pathlib.parse (realpath w local_path).

Definition exists_ (w : World) (p : pathlib.Path) : bool :=
  path_exists w (pathlib.to_str p).

Definition is_file (w : World) (p : pathlib.Path) : bool :=
  path_is_file w (pathlib.to_str p).

(** [s3.upload_file(...)] inside [try ... except Exception as e] *)
Definition try_upload_file (w : World) (Filename Bucket Key : string)
    (ExtraArgs : gmap string string) : Proc (option string) :=
  emit (UploadFile Filename Bucket Key ExtraArgs);;
  mret (s3_upload_file w Filename Bucket Key ExtraArgs).

(** The double quote, for the f-strings that print one *)
Definition dquote : string := String "034"%char EmptyString.

(** ** [test.py]: the document uploader *)

Module test_py.
Import pathlib.

Record Namespace := mkNamespace {
  file : string;
  key : option string;
  bucket : option string
}.

Definition validate_inputs (w : World) (local_path : string) : Proc Path :=
  let local_file_path := resolve w local_path in
  when (negb (exists_ w local_file_path))
    (logger.error ("File not found: " +:+ to_str local_file_path);; sys_exit 1);;
  when (negb (is_file w local_file_path))
    (logger.error ("Not a file: " +:+ to_str local_file_path);; sys_exit 1);;
  when (negb (bool_decide (str.lower (suffix local_file_path) = ".pdf")))
    (logger.warning "The specified file does not have a .pdf extension.");;
  mret local_file_path.

Definition infer_content_type (db : mimetypes.MimeTypes) (file_path : Path) : string :=
  let '(guessed_type, _) := mimetypes.guess_type db (to_str file_path) in
  if str.truthy_opt guessed_type then default "" guessed_type
  else "application/octet-stream".

Definition build_s3_key (local_file_path : Path) (s3_key : option string) : string :=
  if str.truthy_opt s3_key then
    let s3_key := default "" s3_key in
    if str.startswith s3_key "/" then str.slice_from s3_key 1 else s3_key
  else name local_file_path.

Definition upload_file_to_s3 (w : World) (db : mimetypes.MimeTypes)
    (local_file_path : Path) (bucket_name object_key : string) : Proc unit :=
  let content_type := infer_content_type db local_file_path in
  logger.info ("Uploading to S3 | bucket=" +:+ bucket_name +:+ " key=" +:+ object_key
               +:+ " content_type=" +:+ content_type);;
  let extra_args : gmap string string := {[ "ContentType" := content_type ]} in
  r ← try_upload_file w (to_str local_file_path) bucket_name object_key extra_args;
  match r with
  | Some e => logger.exception ("Upload failed: " +:+ e);; sys_exit 1
  | None => mret tt
  end;;
  logger.success ("Upload complete: s3://" +:+ bucket_name +:+ "/" +:+ object_key).

Definition main (w : World) (db : mimetypes.MimeTypes) (args : Namespace) : Proc unit :=
  local_file_path ← validate_inputs w (file args);
  let bucket_name := str.or_ (bucket args) (AWS_BUCKET_NAME (settings w)) in
  when (negb (str.truthy_opt bucket_name))
    (logger.error "Bucket name is not configured. Set AWS_BUCKET_NAME in your .env or pass --bucket.";;
     sys_exit 1);;
  let bucket_name := default "" bucket_name in
  let object_key := build_s3_key local_file_path (key args) in
  logger.info ("Using AWS configuration: region=" +:+ AWS_REGION (settings w)
               +:+ " env=" +:+ ENVIRONMENT (settings w)
               +:+ " bucket=" +:+ bucket_name);;
  upload_file_to_s3 w db local_file_path bucket_name object_key.

(** The [if __name__ == "__main__"] block: one [add_type] call on the
    registry the interpreter starts with, then [main()]. *)
Definition registry (w : World) : mimetypes.MimeTypes :=
  mimetypes.add_type "application/pdf" ".pdf"
    (mimetypes.mkMimeTypes (system_types w)).

Definition script (w : World) (args : Namespace) : Proc unit :=
  main w (registry w) args.

End test_py.

(** ** [test2.py]: the uploader with an image mode *)

Module test2_py.
Import pathlib.

Definition SUPPORTED_IMAGE_EXTENSIONS : gset string :=
  {[ ".png"; ".jpg"; ".jpeg"; ".gif"; ".webp"; ".bmp" ]}.

(** What [parse_args] returns; [folder] holds the default [dummy_image]
    when the option is not given. *)
Record Namespace := mkNamespace {
  file : string;
  key : option string;
  folder : option string;
  bucket : option string;
  image : bool
}.

(** The command line as typed: [None] for an option that is absent *)
Record CommandLine := mkCommandLine {
  opt_file : string;
  opt_key : option string;
  opt_folder : option string;
  opt_bucket : option string;
  opt_image : bool
}.

Definition parse_args (cl : CommandLine) : Namespace :=
  mkNamespace (opt_file cl) (opt_key cl)
              (Some (default "dummy_image" (opt_folder cl)))
              (opt_bucket cl) (opt_image cl).

(** The order in which a Python set is iterated is unspecified; the model
    lists it as [elements] does. *)
Definition validate_inputs (w : World) (local_path : string) (is_image : bool) : Proc Path :=
  let local_file_path := resolve w local_path in
  when (negb (exists_ w local_file_path))
    (logger.error ("File not found: " +:+ to_str local_file_path);; sys_exit 1);;
  when (negb (is_file w local_file_path))
    (logger.error ("Not a file: " +:+ to_str local_file_path);; sys_exit 1);;
  let suffix := str.lower (suffix local_file_path) in
  (if is_image then
     when (negb (bool_decide (suffix ∈ SUPPORTED_IMAGE_EXTENSIONS)))
       (logger.error ("Unsupported image format: " +:+ suffix +:+ ". Supported: "
                      +:+ str.join ", " (elements SUPPORTED_IMAGE_EXTENSIONS));;
        sys_exit 1)
   else
     when (negb (bool_decide (suffix = ".pdf")))
       (logger.warning "The specified file does not have a .pdf extension."));;
  mret local_file_path.

Definition infer_content_type (db : mimetypes.MimeTypes) (file_path : Path) : string :=
  let '(guessed_type, _) := mimetypes.guess_type db (to_str file_path) in
  if str.truthy_opt guessed_type then default "" guessed_type
  else "application/octet-stream".

Definition build_s3_key (local_file_path : Path) (s3_key folder : option string) : string :=
  if str.truthy_opt s3_key then
    let s3_key := default "" s3_key in
    if str.startswith s3_key "/" then str.slice_from s3_key 1 else s3_key
  else
    let filename := name local_file_path in
    if str.truthy_opt folder then
      let folder := str.strip (default "" folder) "/" in
      folder +:+ "/" +:+ filename
    else filename.

Definition upload_file_to_s3 (w : World) (db : mimetypes.MimeTypes)
    (local_file_path : Path) (bucket_name object_key : string) : Proc string :=
  let content_type := infer_content_type db local_file_path in
  logger.info ("Uploading to S3 | bucket=" +:+ bucket_name +:+ " key=" +:+ object_key
               +:+ " content_type=" +:+ content_type);;
  let extra_args : gmap string string := {[ "ContentType" := content_type ]} in
  r ← try_upload_file w (to_str local_file_path) bucket_name object_key extra_args;
  match r with
  | Some e => logger.exception ("Upload failed: " +:+ e);; sys_exit 1
  | None => mret tt
  end;;
  let s3_path := "s3://" +:+ bucket_name +:+ "/" +:+ object_key in
  logger.success ("Upload complete: " +:+ s3_path);;
  mret s3_path.

Definition main (w : World) (db : mimetypes.MimeTypes) (args : Namespace) : Proc unit :=
  let file_path := parse (file args) in
  let is_image :=
    image args
    || bool_decide (str.lower (suffix file_path) ∈ SUPPORTED_IMAGE_EXTENSIONS) in
  local_file_path ← validate_inputs w (file args) is_image;
  let bucket_name := str.or_ (bucket args) (AWS_BUCKET_NAME (settings w)) in
  when (negb (str.truthy_opt bucket_name))
    (logger.error "Bucket name is not configured. Set AWS_BUCKET_NAME in your .env or pass --bucket.";;
     sys_exit 1);;
  let bucket_name := default "" bucket_name in
  let object_key := build_s3_key local_file_path (key args) (folder args) in
  logger.info ("Using AWS configuration: region=" +:+ AWS_REGION (settings w)
               +:+ " env=" +:+ ENVIRONMENT (settings w)
               +:+ " bucket=" +:+ bucket_name);;
  s3_path ← upload_file_to_s3 w db local_file_path bucket_name object_key;
  when is_image
    (logger.info (str.repeat "=" 60);;
     logger.info "To test the /upload-image endpoint, use:";;
     logger.info ("  file_path: " +:+ dquote +:+ object_key +:+ dquote);;
     logger.info ("  file_name: " +:+ dquote +:+ name local_file_path +:+ dquote);;
     logger.info ("  s3_bucket_name: " +:+ dquote +:+ bucket_name +:+ dquote);;
     logger.info (str.repeat "=" 60)).

(** The [if __name__ == "__main__"] block: seven [add_type] calls, the
    first one innermost, then [main()]. *)
Definition registry (w : World) : mimetypes.MimeTypes :=
  mimetypes.add_type "image/bmp" ".bmp"
   (mimetypes.add_type "image/webp" ".webp"
   (mimetypes.add_type "image/gif" ".gif"
   (mimetypes.add_type "image/jpeg" ".jpeg"
   (mimetypes.add_type "image/jpeg" ".jpg"
   (mimetypes.add_type "image/png" ".png"
   (mimetypes.add_type "application/pdf" ".pdf"
      (mimetypes.mkMimeTypes (system_types w)))))))).

Definition script (w : World) (cl : CommandLine) : Proc unit :=
  main w (registry w) (parse_args cl).

End test2_py.

(** ** What a trace shows *)

(** The keys handed to the storage client, one per [upload_file] call *)
Definition uploaded_keys (t : list event) : list string :=
  omap (λ e, match e with UploadFile _ _ k _ => Some k | _ => None end) t.

(** The success-level log lines *)
Definition success_lines (t : list event) : list string :=
  omap (λ e, match e with Log SUCCESS m => Some m | _ => None end) t.

(** The warning-level log lines *)
Definition warning_lines (t : list event) : list string :=
  omap (λ e, match e with Log WARNING m => Some m | _ => None end) t.

(** The line that announces a transfer, the call itself, the location that
    a successful transfer reports, and the line that shows the configuration *)
Definition announced (content_type bucket_name object_key : string) : event :=
  Log INFO ("Uploading to S3 | bucket=" +:+ bucket_name +:+ " key=" +:+ object_key
            +:+ " content_type=" +:+ content_type).

Definition called (p : pathlib.Path) (content_type bucket_name object_key : string) : event :=
  UploadFile (pathlib.to_str p) bucket_name object_key {[ "ContentType" := content_type ]}.

Definition location (bucket_name object_key : string) : string :=
  "s3://" +:+ bucket_name +:+ "/" +:+ object_key.

Definition configuration_line (w : World) (bucket_name : string) : event :=
  Log INFO ("Using AWS configuration: region=" +:+ AWS_REGION (settings w)
            +:+ " env=" +:+ ENVIRONMENT (settings w)
            +:+ " bucket=" +:+ bucket_name).

(** The calls made to the storage client, in order: file name, bucket, key
    and extra arguments of each *)
Definition upload_calls (t : list event)
    : list (string * string * string * gmap string string) :=
  omap (λ e, match e with UploadFile f b k x => Some (f, b, k, x) | _ => None end) t.

(** The error-level log lines *)
Definition error_lines (t : list event) : list string :=
  omap (λ e, match e with Log ERROR m => Some m | _ => None end) t.

(** The block of lines that [test2.py] logs after the upload of an image *)
Definition endpoint_hint (object_key file_name bucket_name : string) : list event :=
  [Log INFO (str.repeat "=" 60);
   Log INFO "To test the /upload-image endpoint, use:";
   Log INFO ("  file_path: " +:+ dquote +:+ object_key +:+ dquote);
   Log INFO ("  file_name: " +:+ dquote +:+ file_name +:+ dquote);
   Log INFO ("  s3_bucket_name: " +:+ dquote +:+ bucket_name +:+ dquote);
   Log INFO (str.repeat "=" 60)].

(** The line that ends a run without a bucket name *)
Definition no_bucket_line : event :=
  Log ERROR "Bucket name is not configured. Set AWS_BUCKET_NAME in your .env or pass --bucket.".

(** [is_image] as [test2.py]'s [main] computes it, from the flag and from the
    path as typed *)
Definition image_mode (args : test2_py.Namespace) : bool :=
  test2_py.image args
  || bool_decide (str.lower (pathlib.suffix (pathlib.parse (test2_py.file args)))
                  ∈ test2_py.SUPPORTED_IMAGE_EXTENSIONS).

(** [s.isascii()]: every character is below 128.  On such text the
    byte-wise [str.lower] is Python's [str.lower()]. *)
Fixpoint isascii (s : string) : bool :=
  match s with
  | EmptyString => true
  | String c s' => (Ascii.N_of_ascii c <? 128)%N && isascii s'
  end.

(** ** More sample worlds *)

Module scene.

(** Nothing exists. *)
Definition bare : World :=
  mkWorld (λ s, "/srv/" +:+ s) (λ _, false) (λ _, false)
          (mkSettings None "eu-west-1" "dev") ∅ (λ _ _ _ _, None).

(** Every path exists and none is a regular file. *)
Definition folders : World :=
  mkWorld (λ s, "/srv/" +:+ s) (λ _, true) (λ _, false)
          (mkSettings None "eu-west-1" "dev") ∅ (λ _ _ _ _, None).

(** Every path is a regular file and the configuration names a bucket. *)
Definition configured : World :=
  mkWorld (λ s, "/srv/" +:+ s) (λ _, true) (λ _, true)
          (mkSettings (Some "vault") "eu-west-1" "prod") ∅ (λ _ _ _ _, None).

(** Every path is a regular file, and the interpreter's strict table knows
    the tar archive, as CPython's does. *)
Definition stock : World :=
  mkWorld (λ s, "/srv/" +:+ s) (λ _, true) (λ _, true)
          (mkSettings None "eu-west-1" "dev") {[ ".tar" := "application/x-tar" ]}
          (λ _ _ _ _, None).

(** Every typed path is a link to the one file [/data/blob.bin]. *)
Definition linked : World :=
  mkWorld (λ _, "/data/blob.bin") (λ _, true) (λ _, true)
          (mkSettings (Some "vault") "eu-west-1" "prod") ∅ (λ _ _ _ _, None).

(** Every typed path is a link to the one file [/data/photo.png]. *)
Definition linked_image : World :=
  mkWorld (λ _, "/data/photo.png") (λ _, true) (λ _, true)
          (mkSettings (Some "vault") "eu-west-1" "prod") ∅ (λ _ _ _ _, None).

End scene.

(** ** Sample runs *)

Module sample.

(** A world in which every path is an existing regular file under [/srv],
    the configuration names no bucket, the interpreter brings no types of
    its own and every transfer succeeds. *)
Definition calm : World :=
  mkWorld (λ s, "/srv/" +:+ s) (λ _, true) (λ _, true)
          (mkSettings None "eu-west-1" "dev") ∅ (λ _ _ _ _, None).

(** The same world with a storage client that refuses every transfer. *)
Definition refusing : World :=
  mkWorld (λ s, "/srv/" +:+ s) (λ _, true) (λ _, true)
          (mkSettings None "eu-west-1" "dev") ∅ (λ _ _ _ _, Some "AccessDenied").

End sample.

(** * Properties *)

(** Decide [if x:] and unwrap [x] once its constructor is known. *)
Ltac py_truth := cbn [str.truthy_opt str.truthy default from_option id].

(** Run the trace monad on the steps whose outcome is known. *)
Ltac proc_run :=
  cbn [mbind mret Proc_bind Proc_ret when emit sys_exit negb andb orb
       logger.info logger.warning logger.error logger.success logger.exception
       try_upload_file trace result fst snd app].

(** ** Strings *)

Example parse_examples :
  pathlib.parse "/home/user/docs/report.pdf"
  = pathlib.mkPath "/" ["home"; "user"; "docs"; "report.pdf"]
  ∧ pathlib.parse "./a//b.PNG/" = pathlib.mkPath "" ["a"; "b.PNG"]
  ∧ pathlib.parse "//srv/x" = pathlib.mkPath "//" ["srv"; "x"]
  ∧ pathlib.to_str (pathlib.parse "///srv/./x/") = "/srv/x".
Proof. repeat split; vm_compute; reflexivity. Qed.

Example suffix_examples :
  pathlib.suffix (pathlib.parse "/a/b.tar.gz") = ".gz"
  ∧ pathlib.suffix (pathlib.parse "/a/.bashrc") = ""
  ∧ pathlib.suffix (pathlib.parse "/a/b.") = ""
  ∧ posixpath.splitext "/a/..pdf" = ("/a/..pdf", "")
  ∧ posixpath.splitext "/a.b/c" = ("/a.b/c", "").
Proof. repeat split; vm_compute; reflexivity. Qed.

Section str_facts.
Implicit Types (s t u : string) (c a : ascii).

Lemma sapp_nil_l s : "" +:+ s = s.
Proof. reflexivity. Qed.

Lemma sapp_cons a s t : String a s +:+ t = String a (s +:+ t).
Proof. reflexivity. Qed.

Lemma sapp_nil_r s : s +:+ "" = s.
Proof. induction s as [|a s IH]; [done|]. by rewrite sapp_cons, IH. Qed.

Lemma sapp_assoc s t u : (s +:+ t) +:+ u = s +:+ (t +:+ u).
Proof. induction s as [|a s IH]; [done|]. by rewrite !sapp_cons, IH. Qed.

Lemma len_nil : str.len "" = 0.
Proof. reflexivity. Qed.

Lemma len_cons a s : str.len (String a s) = str.len s + 1.
Proof. unfold str.len. cbn [String.length]. lia. Qed.

Lemma len_nonneg s : 0 ≤ str.len s.
Proof. unfold str.len. lia. Qed.

Lemma len_app s t : str.len (s +:+ t) = str.len s + str.len t.
Proof.
  induction s as [|a s IH]; [rewrite sapp_nil_l, len_nil; lia|].
  rewrite sapp_cons, !len_cons, IH. lia.
Qed.

Lemma drop_app_length s t : str.drop (String.length s) (s +:+ t) = t.
Proof. induction s as [|a s IH]; [by destruct t|]. exact IH. Qed.

Lemma take_app_length s t : str.take (String.length s) (s +:+ t) = s.
Proof.
  induction s as [|a s IH]; [by destruct t|].
  rewrite sapp_cons. cbn [String.length str.take]. by rewrite IH.
Qed.

Lemma clamp_inside s i : 0 ≤ i ≤ str.len s → str.clamp s i = Z.to_nat i.
Proof.
  intros Hi. unfold str.clamp.
  destruct (Z.ltb_spec i 0); [lia|]. f_equal. lia.
Qed.

Lemma to_nat_len s : Z.to_nat (str.len s) = String.length s.
Proof. unfold str.len. lia. Qed.

Lemma slice_to_app s t : str.slice_to (s +:+ t) (str.len s) = s.
Proof.
  unfold str.slice_to. rewrite clamp_inside, to_nat_len.
  - apply take_app_length.
  - rewrite len_app. pose proof (len_nonneg s). pose proof (len_nonneg t). lia.
Qed.

Lemma slice_from_app s t : str.slice_from (s +:+ t) (str.len s) = t.
Proof.
  unfold str.slice_from. rewrite clamp_inside, to_nat_len.
  - apply drop_app_length.
  - rewrite len_app. pose proof (len_nonneg s). pose proof (len_nonneg t). lia.
Qed.

Lemma slice_char s a t :
  str.slice (s +:+ String a t) (str.len s) (str.len s + 1) = String a "".
Proof.
  pose proof (len_nonneg s). pose proof (len_nonneg t).
  unfold str.slice. rewrite !clamp_inside.
  - rewrite to_nat_len, drop_app_length.
    replace (Z.to_nat (str.len s + 1) - String.length s)%nat with 1%nat
      by (unfold str.len; lia).
    reflexivity.
  - rewrite len_app, len_cons. lia.
  - rewrite len_app, len_cons. lia.
Qed.

Lemma rfind_bounds s c : -1 ≤ str.rfind s c < str.len s.
Proof.
  induction s as [|a s IH]; [change (-1 ≤ -1 < 0); lia|].
  rewrite len_cons. cbn [str.rfind]. cbv zeta.
  destruct (Z.leb_spec 0 (str.rfind s c)); [lia|].
  pose proof (len_nonneg s). case_bool_decide; lia.
Qed.

Lemma rfind_app s t c :
  str.rfind (s +:+ t) c =
    if 0 <=? str.rfind t c then str.len s + str.rfind t c else str.rfind s c.
Proof.
  induction s as [|a s IH].
  - rewrite sapp_nil_l, len_nil.
    destruct (Z.leb_spec 0 (str.rfind t c)); [lia|].
    pose proof (rfind_bounds t c). change (str.rfind "" c) with (-1). lia.
  - rewrite sapp_cons, len_cons. cbn [str.rfind]. cbv zeta. rewrite IH.
    destruct (Z.leb_spec 0 (str.rfind t c)).
    + pose proof (len_nonneg s).
      destruct (Z.leb_spec 0 (str.len s + str.rfind t c)); lia.
    + reflexivity.
Qed.

Lemma rfind_absent s c : str.contains s c = false → str.rfind s c = -1.
Proof.
  induction s as [|a s IH]; [done|].
  cbn [str.contains str.rfind]. intros [Ha Hs]%orb_false_iff.
  cbv zeta. rewrite (IH Hs). cbn. by rewrite Ha.
Qed.

Lemma contains_app s t c :
  str.contains (s +:+ t) c = str.contains s c || str.contains t c.
Proof.
  induction s as [|a s IH]; [done|].
  rewrite sapp_cons. cbn [str.contains]. rewrite IH. by rewrite orb_assoc.
Qed.

Lemma rfind_single a s c :
  str.contains s c = false → str.rfind (String a s) c = if bool_decide (a = c) then 0 else -1.
Proof. intros H. cbn [str.rfind]. cbv zeta. by rewrite (rfind_absent _ _ H). Qed.

Lemma skip_leading_dots_found p n i j :
  i ≤ j < i + Z.of_nat n →
  str.slice p j (j + 1) ≠ "." →
  posixpath.skip_leading_dots p n i = true.
Proof.
  revert i. induction n as [|n IH]; intros i Hj Hne; [lia|].
  cbn [posixpath.skip_leading_dots].
  case_bool_decide as Hd; [|done]. cbn [negb].
  apply IH; [|done].
  destruct (decide (i = j)) as [->|]; [done|lia].
Qed.

Lemma splitext_ext pre c mid e :
  c ≠ "."%char → c ≠ "/"%char →
  str.contains mid "/" = false →
  str.contains e "/" = false →
  str.contains e "." = false →
  posixpath.splitext (pre +:+ String c mid +:+ String "." e)
  = (pre +:+ String c mid, String "." e).
Proof.
  intros Hc1 Hc2 Hmid He1 He2.
  rewrite <- sapp_assoc. set (X := pre +:+ String c mid).
  unfold posixpath.splitext.
  assert (Hdot : str.rfind (X +:+ String "." e) "." = str.len X).
  { rewrite rfind_app, (rfind_single _ _ _ He2).
    rewrite bool_decide_eq_true_2 by done. cbn. lia. }
  assert (Hsep : str.rfind (X +:+ String "." e) "/" = str.rfind pre "/").
  { rewrite rfind_app, (rfind_single _ _ _ He1).
    rewrite bool_decide_eq_false_2 by done. cbn [Z.leb Z.compare].
    unfold X. rewrite rfind_app, (rfind_single _ _ _ Hmid).
    by rewrite bool_decide_eq_false_2. }
  rewrite Hdot, Hsep.
  pose proof (rfind_bounds pre "/") as Hb.
  assert (HX : str.len X = str.len pre + 1 + str.len mid).
  { unfold X. rewrite len_app, len_cons. lia. }
  pose proof (len_nonneg mid).
  rewrite (proj2 (Z.ltb_lt _ _)) by lia.
  rewrite (skip_leading_dots_found _ _ _ (str.len pre)).
  - cbn [andb]. by rewrite slice_to_app, slice_from_app.
  - lia.
  - unfold X. rewrite sapp_assoc, sapp_cons, slice_char. congruence.
Qed.
End str_facts.

(** ** Paths *)

Section path_facts.
Implicit Types (s t : string) (c a : ascii) (p : pathlib.Path).

Lemma lstrip_suffix s c : ∃ d, s = d +:+ str.lstrip s c.
Proof.
  induction s as [|a s [d IH]]; [by exists ""|].
  cbn [str.lstrip]. case_bool_decide.
  - exists (String a d). by rewrite sapp_cons, <- IH.
  - by exists "".
Qed.

Lemma lstrip_head s c a r : str.lstrip s c = String a r → a ≠ c.
Proof.
  induction s as [|b s IH]; [done|].
  cbn [str.lstrip]. case_bool_decide; [done|]. congruence.
Qed.

Lemma split_no_sep s sep :
  Forall (λ x, str.contains x sep = false) (str.split s sep).
Proof.
  induction s as [|a s IH]; [by repeat constructor|].
  cbn [str.split]. case_bool_decide as Ha.
  - by constructor.
  - destruct (str.split s sep) as [|x r].
    + repeat constructor. cbn. by rewrite bool_decide_eq_false_2.
    + inversion IH; subst. constructor; [|done].
      cbn. by rewrite bool_decide_eq_false_2.
Qed.

Lemma parse_tail_no_sep s :
  Forall (λ x, str.contains x "/" = false) (pathlib.tail (pathlib.parse s)).
Proof.
  unfold pathlib.parse. destruct (negb (str.truthy s)); [constructor|].
  destruct (pathlib.splitroot s) as [rt rel]. cbn [pathlib.tail].
  apply Forall_forall. intros x [_ Hx]%list_elem_of_filter.
  revert x Hx. apply Forall_forall, split_no_sep.
Qed.

Lemma last_Forall {A} (P : A → Prop) (l : list A) d :
  Forall P l → P d → P (List.last l d).
Proof.
  induction 1 as [|x l Hx Hl IH]; [done|]. intros Hd.
  destruct l; [done|]. by apply IH.
Qed.

Lemma name_no_sep s : str.contains (pathlib.name (pathlib.parse s)) "/" = false.
Proof.
  unfold pathlib.name.
  apply (last_Forall (λ x, str.contains x "/" = false)); [|done].
  apply parse_tail_no_sep.
Qed.

Lemma join_last sep (l : list string) :
  l ≠ [] → ∃ pre, str.join sep l = pre +:+ List.last l "".
Proof.
  induction l as [|x l IH]; [done|]. intros _.
  destruct l as [|y r]; [by exists ""|].
  destruct IH as [pre IH]; [done|].
  exists (x +:+ sep +:+ pre).
  change (str.join sep (x :: y :: r)) with (x +:+ sep +:+ str.join sep (y :: r)).
  rewrite IH, !sapp_assoc. reflexivity.
Qed.

Lemma truthy_app_r s t : t ≠ "" → str.truthy (s +:+ t) = true.
Proof. destruct s; [|done]. rewrite sapp_nil_l. by destruct t. Qed.

Lemma to_str_name p :
  pathlib.name p ≠ "" → ∃ pre, pathlib.to_str p = pre +:+ pathlib.name p.
Proof.
  intros Hn. unfold pathlib.to_str, pathlib.name in *.
  destruct (join_last "/" (pathlib.tail p)) as [pre Hpre].
  { intros E. by rewrite E in Hn. }
  exists (pathlib.root p +:+ pre). rewrite Hpre, <- sapp_assoc.
  by rewrite truthy_app_r.
Qed.
End path_facts.

(** ** The [mimetypes] lookup *)

Section mimetypes_facts.
Implicit Types (s t e : string) (c a : ascii) (db : mimetypes.MimeTypes).

Lemma lower_char_dot a : str.lower_char a = "."%char → a = "."%char.
Proof. destruct a as [[] [] [] [] [] [] [] []]; vm_compute; congruence. Qed.

Lemma contains_lower s c :
  str.lower_char c = c →
  str.contains (str.lower s) c = false → str.contains s c = false.
Proof.
  intros Hc. induction s as [|a s IH]; [done|].
  cbn [str.lower str.contains]. intros [Ha Hs]%orb_false_iff.
  rewrite (IH Hs), orb_false_r.
  apply bool_decide_eq_false_2. intros ->.
  rewrite Hc in Ha. by rewrite bool_decide_eq_true_2 in Ha.
Qed.

(** An extension that lowers to a dotted name without further dots is
    itself a dot followed by dot-free text. *)
Lemma lower_ext_shape ext e' :
  str.lower ext = String "." e' → str.contains e' "." = false →
  ∃ e, ext = String "." e ∧ str.contains e "." = false.
Proof.
  destruct ext as [|a e]; [done|]. cbn [str.lower].
  intros [= Ha He] Hdot. exists e. split.
  - by rewrite (lower_char_dot _ Ha).
  - apply contains_lower; [done|]. by rewrite He.
Qed.

Lemma suffix_map_values k v :
  mimetypes.suffix_map !! k = Some v →
  v ∈ [".svg.gz"; ".tar.gz"; ".tar.bz2"; ".tar.xz"].
Proof.
  intros H%elem_of_list_to_map_2.
  repeat (apply elem_of_cons in H as [[= -> ->]|H]; [set_solver|]).
  by apply elem_of_nil in H.
Qed.

Lemma encodings_map_keys k v :
  mimetypes.encodings_map !! k = Some v →
  k ∈ [".gz"; ".Z"; ".bz2"; ".xz"; ".br"].
Proof.
  intros H%elem_of_list_to_map_2.
  repeat (apply elem_of_cons in H as [[= -> ->]|H]; [set_solver|]).
  by apply elem_of_nil in H.
Qed.

Lemma suffix_loop_stop rounds base ext :
  mimetypes.suffix_map !! str.lower ext = None →
  mimetypes.suffix_loop (S rounds) base ext = (base, ext).
Proof. intros H. cbn [mimetypes.suffix_loop]. by rewrite H. Qed.

(** The loop has left by its condition, not by the bound on its rounds. *)
Lemma suffix_loop_exits base ext :
  mimetypes.suffix_map
    !! str.lower (mimetypes.suffix_loop mimetypes.suffix_rounds base ext).2 = None.
Proof.
  unfold mimetypes.suffix_rounds. cbn [mimetypes.suffix_loop].
  destruct (mimetypes.suffix_map !! str.lower ext) as [repl|] eqn:E; [|done].
  apply suffix_map_values in E.
  assert (∃ b e, posixpath.splitext (base +:+ repl) = (b, String "." e)
                 ∧ e ∈ ["gz"; "bz2"; "xz"]) as (b & e & -> & He).
  { repeat (apply elem_of_cons in E as [->|E]).
    - exists (base +:+ ".svg"), "gz". split; [|set_solver].
      pose proof (splitext_ext (base +:+ ".") "s" "vg" "gz") as H.
      rewrite !sapp_assoc in H. by apply H.
    - exists (base +:+ ".tar"), "gz". split; [|set_solver].
      pose proof (splitext_ext (base +:+ ".") "t" "ar" "gz") as H.
      rewrite !sapp_assoc in H. by apply H.
    - exists (base +:+ ".tar"), "bz2". split; [|set_solver].
      pose proof (splitext_ext (base +:+ ".") "t" "ar" "bz2") as H.
      rewrite !sapp_assoc in H. by apply H.
    - exists (base +:+ ".tar"), "xz". split; [|set_solver].
      pose proof (splitext_ext (base +:+ ".") "t" "ar" "xz") as H.
      rewrite !sapp_assoc in H. by apply H.
    - by apply elem_of_nil in E. }
  repeat (apply elem_of_cons in He as [->|He]); try done.
  by apply elem_of_nil in He.
Qed.

(** The path of a file whose name is a stem that is not made of dots only,
    then a dot and dot-free text, splits at that dot. *)
Lemma splitext_to_str s stem e :
  pathlib.name (pathlib.parse s) = stem +:+ String "." e →
  str.lstrip stem "." ≠ "" →
  str.contains e "." = false →
  ∃ base, posixpath.splitext (pathlib.to_str (pathlib.parse s)) = (base, String "." e).
Proof.
  intros Hname Hstem Hdot.
  destruct (to_str_name (pathlib.parse s)) as [pre ->].
  { rewrite Hname. destruct stem; [done|]. by rewrite sapp_cons. }
  pose proof (name_no_sep s) as Hsep. rewrite Hname in *.
  rewrite contains_app in Hsep. apply orb_false_iff in Hsep as [Hs1 Hs2].
  cbn [str.contains] in Hs2. apply orb_false_iff in Hs2 as [_ Hs2].
  destruct (lstrip_suffix stem ".") as [d Hd].
  destruct (str.lstrip stem ".") as [|a r] eqn:El; [done|].
  apply lstrip_head in El. rewrite Hd in *.
  rewrite contains_app in Hs1. apply orb_false_iff in Hs1 as [_ Hs1].
  cbn [str.contains] in Hs1. apply orb_false_iff in Hs1 as [Ha Hr].
  apply bool_decide_eq_false_1 in Ha.
  exists ((pre +:+ d) +:+ String a r).
  rewrite <- (splitext_ext (pre +:+ d) a r e) by done.
  by rewrite !sapp_assoc.
Qed.

Lemma guess_type_ext db s stem e :
  pathlib.name (pathlib.parse s) = stem +:+ String "." e →
  str.lstrip stem "." ≠ "" →
  str.contains e "." = false →
  mimetypes.suffix_map !! str.lower (String "." e) = None →
  mimetypes.encodings_map !! String "." e = None →
  mimetypes.guess_type db (pathlib.to_str (pathlib.parse s))
  = (mimetypes.types_map db !! str.lower (String "." e), None).
Proof.
  intros Hname Hstem Hdot Hsuf Henc.
  destruct (splitext_to_str s stem e) as [base Hsplit]; [done..|].
  unfold mimetypes.guess_type. rewrite Hsplit.
  unfold mimetypes.suffix_rounds. rewrite suffix_loop_stop by done.
  by rewrite Henc.
Qed.

(** No key of the two alias tables lowers to [.pdf] or [.webp]. *)
Lemma aliases_miss ext :
  str.lower ext = ".pdf" ∨ str.lower ext = ".webp" →
  mimetypes.suffix_map !! str.lower ext = None
  ∧ mimetypes.encodings_map !! ext = None.
Proof.
  intros H. split.
  - by destruct H as [-> | ->].
  - destruct (mimetypes.encodings_map !! ext) as [v|] eqn:E; [|done].
    apply encodings_map_keys in E.
    repeat (apply elem_of_cons in E as [->|E]);
      try (by destruct H as [H|H]; vm_compute in H).
    by apply elem_of_nil in E.
Qed.
End mimetypes_facts.

(** ** [strip] removes the slashes at both ends and nothing else *)

Section strip_facts.
Implicit Types (s t : string) (c a : ascii).

Lemma slice_from_1 a s : str.slice_from (String a s) 1 = s.
Proof.
  unfold str.slice_from. rewrite clamp_inside; [done|].
  rewrite len_cons. pose proof (len_nonneg s). lia.
Qed.

Lemma repeat_S c n :
  str.repeat (String c "") (S n) = String c (str.repeat (String c "") n).
Proof. reflexivity. Qed.

Lemma lstrip_repeat s c :
  ∃ n, s = str.repeat (String c "") n +:+ str.lstrip s c.
Proof.
  induction s as [|a s [n IH]]; [by exists O|].
  cbn [str.lstrip]. case_bool_decide as Ha.
  - subst a. exists (S n). by rewrite repeat_S, sapp_cons, <- IH.
  - by exists O.
Qed.

Lemma rstrip_repeat s c :
  ∃ m, s = str.rstrip s c +:+ str.repeat (String c "") m.
Proof.
  induction s as [|a s [m IH]]; [by exists O|].
  cbn [str.rstrip]. destruct (str.rstrip s c) as [|b r].
  - rewrite sapp_nil_l in IH. case_bool_decide as Ha.
    + subst a. exists (S m). by rewrite sapp_nil_l, repeat_S, <- IH.
    + exists m. by rewrite sapp_cons, sapp_nil_l, <- IH.
  - exists m. by rewrite sapp_cons, <- IH.
Qed.

Lemma lstrip_startswith s c : str.startswith (str.lstrip s c) c = false.
Proof.
  induction s as [|a s IH]; [done|].
  cbn [str.lstrip]. case_bool_decide as Ha; [done|].
  cbn. by rewrite bool_decide_eq_false_2.
Qed.

Lemma rstrip_startswith s c :
  str.startswith s c = false → str.startswith (str.rstrip s c) c = false.
Proof.
  destruct s as [|a s]; [done|]. cbn [str.rstrip str.startswith]. intros Ha.
  destruct (str.rstrip s c); [|done]. by rewrite Ha.
Qed.

Lemma rstrip_endswith s c : str.endswith (str.rstrip s c) c = false.
Proof.
  induction s as [|a s IH]; [done|].
  cbn [str.rstrip]. destruct (str.rstrip s c) as [|b r]; [|done].
  case_bool_decide as Ha; [done|]. cbn. by rewrite bool_decide_eq_false_2.
Qed.

(** [s.strip(c)] is [s] without its leading and trailing [c]s. *)
Lemma strip_spec s c :
  (∃ n m, s = str.repeat (String c "") n +:+ str.strip s c
              +:+ str.repeat (String c "") m)
  ∧ str.startswith (str.strip s c) c = false
  ∧ str.endswith (str.strip s c) c = false.
Proof.
  unfold str.strip. split; [|split].
  - destruct (lstrip_repeat s c) as [n Hn].
    destruct (rstrip_repeat (str.lstrip s c) c) as [m Hm].
    exists n, m. by rewrite <- Hm.
  - apply rstrip_startswith, lstrip_startswith.
  - apply rstrip_endswith.
Qed.

Lemma startswith_app s t c :
  s ≠ "" → str.startswith (s +:+ t) c = str.startswith s c.
Proof. by destruct s. Qed.

Lemma startswith_absent s c : str.contains s c = false → str.startswith s c = false.
Proof. destruct s as [|a s]; [done|]. cbn. by intros [? _]%orb_false_iff. Qed.
End strip_facts.

(** ** [build_s3_key] *)

Section build_s3_key_facts.
Import pathlib.
Implicit Types (p : Path) (k f : string) (folder : option string).

(** Where the key does stay free of a leading slash: an explicit key that
    does not start with two slashes, a folder that is more than slashes,
    or no folder at all. *)
Lemma build_s3_key_no_leading_slash s (s3_key folder : option string) :
  (∀ r, s3_key = Some (String "/" r) → str.startswith r "/" = false) →
  (∀ f, folder = Some f → f ≠ "" → str.strip f "/" ≠ "") →
  str.startswith (test2_py.build_s3_key (parse s) s3_key folder) "/" = false.
Proof.
  intros Hkey Hfolder. unfold test2_py.build_s3_key.
  destruct s3_key as [[|a k]|]; py_truth.
  2:{ unfold str.startswith at 2. case_bool_decide as Ha.
      - subst a. rewrite slice_from_1. by apply Hkey.
      - cbn. by rewrite bool_decide_eq_false_2. }
  all: destruct folder as [[|b f]|]; py_truth;
    try (apply startswith_absent, name_no_sep).
  all: rewrite startswith_app by (by apply Hfolder); apply strip_spec.
Qed.

(** [test.py] builds the key as [test2.py] does without a folder. *)
Lemma test_py_build_s3_key p (s3_key : option string) :
  test_py.build_s3_key p s3_key = test2_py.build_s3_key p s3_key None.
Proof. reflexivity. Qed.

Example build_s3_key_spec_examples :
  test2_py.build_s3_key (parse "/srv/b.pdf") (Some "/a/b.pdf") None = "a/b.pdf"
  ∧ test_py.build_s3_key (parse "/srv/b.pdf") (Some "/a/b.pdf") = "a/b.pdf"
  ∧ test2_py.build_s3_key (parse "/srv/x.png") None (Some "docs/") = "docs/x.png"
  ∧ test2_py.build_s3_key (parse "/srv/x.png") None None = "x.png"
  ∧ test2_py.build_s3_key (parse "/srv/x.png") (Some "a//b/") (Some "docs") = "a//b/".
Proof. repeat split; vm_compute; reflexivity. Qed.
End build_s3_key_facts.

(** C1: the destination key never begins with a slash.  The code breaks
    this at an explicit key with two leading slashes, of which only the first
    is dropped, and at a folder made of slashes only, which is stripped to
    the empty string and still joined with a slash. *)
Theorem build_s3_key_keeps_a_leading_slash :
  test_py.build_s3_key (pathlib.parse "/srv/x.png") (Some "//a") = "/a"
  ∧ test2_py.build_s3_key (pathlib.parse "/srv/x.png") (Some "//a") (Some "dummy_image") = "/a"
  ∧ test2_py.build_s3_key (pathlib.parse "/srv/x.png") None (Some "//") = "/x.png"
  ∧ str.startswith
      (test2_py.build_s3_key (pathlib.parse "/srv/x.png") (Some "//a") None) "/" = true.
Proof. repeat split; vm_compute; reflexivity. Qed.

(** C3, as stated: with an explicit key supplied, the empty string included,
    the result does not change when the folder varies.  It does change for
    the empty key. *)
Lemma build_s3_key_empty_key_is_derived :
  test2_py.build_s3_key (pathlib.parse "/srv/x.png") (Some "") (Some "docs")
  ≠ test2_py.build_s3_key (pathlib.parse "/srv/x.png") (Some "") (Some "img").
Proof. vm_compute. discriminate. Qed.

(** C3, amended: for every non-empty explicit key the result is the same
    whatever the path and the folder are: no folder or file name enters it. *)
Theorem build_s3_key_explicit_key_alone (k : string) (p1 p2 : pathlib.Path)
    (f1 f2 : option string) :
  k ≠ "" →
  test2_py.build_s3_key p1 (Some k) f1 = test2_py.build_s3_key p2 (Some k) f2
  ∧ test_py.build_s3_key p1 (Some k) = test_py.build_s3_key p2 (Some k)
  ∧ test_py.build_s3_key p1 (Some k) = test2_py.build_s3_key p2 (Some k) f2.
Proof.
  intros Hk. unfold test2_py.build_s3_key, test_py.build_s3_key.
  destruct k; [done|]. auto.
Qed.

Lemma build_s3_key_explicit_key_alone_witness :
  "/a/b.pdf" ≠ ""
  ∧ test2_py.build_s3_key (pathlib.parse "/srv/x.png") (Some "/a/b.pdf") (Some "docs")
    = test2_py.build_s3_key (pathlib.parse "/tmp/y.pdf") (Some "/a/b.pdf") None.
Proof.
  split; [done|].
  apply (build_s3_key_explicit_key_alone "/a/b.pdf" (pathlib.parse "/srv/x.png")
           (pathlib.parse "/tmp/y.pdf") (Some "docs") None).
  done.
Defined.

(** C4: a non-empty explicit key comes back without its first character
    when that is a slash, and unchanged otherwise; what follows the first
    character is returned as it is, slashes included. *)
Theorem build_s3_key_explicit_key (p : pathlib.Path) (k : string) (folder : option string) :
  k ≠ "" →
  (∀ r, k = String "/" r →
        test_py.build_s3_key p (Some k) = r
        ∧ test2_py.build_s3_key p (Some k) folder = r)
  ∧ (str.startswith k "/" = false →
        test_py.build_s3_key p (Some k) = k
        ∧ test2_py.build_s3_key p (Some k) folder = k).
Proof.
  intros Hk. unfold test2_py.build_s3_key, test_py.build_s3_key.
  destruct k as [|a k]; [done|]. py_truth.
  split.
  - intros r [= -> ->]. cbn [str.startswith].
    rewrite bool_decide_eq_true_2 by done. by rewrite slice_from_1.
  - by intros ->.
Qed.

Lemma build_s3_key_explicit_key_witness :
  "/a//b.pdf/" ≠ ""
  ∧ test_py.build_s3_key (pathlib.parse "/srv/x.png") (Some "/a//b.pdf/") = "a//b.pdf/"
  ∧ test2_py.build_s3_key (pathlib.parse "/srv/x.png") (Some "/a//b.pdf/") (Some "docs")
    = "a//b.pdf/".
Proof.
  split; [done|].
  apply (build_s3_key_explicit_key (pathlib.parse "/srv/x.png") "/a//b.pdf/" (Some "docs"));
    done.
Defined.

(** C5: without an explicit key (or with the empty one) a non-empty folder
    gives the folder stripped of the slashes at its two ends, a slash, and
    the base name; an empty or absent folder gives the base name alone. *)
Theorem build_s3_key_folder_and_name (p : pathlib.Path) (s3_key : option string) :
  str.truthy_opt s3_key = false →
  (∀ f, f ≠ "" →
     ∃ stripped n m,
       test2_py.build_s3_key p s3_key (Some f) = stripped +:+ "/" +:+ pathlib.name p
       ∧ stripped = str.strip f "/"
       ∧ f = str.repeat "/" n +:+ stripped +:+ str.repeat "/" m
       ∧ str.startswith stripped "/" = false
       ∧ str.endswith stripped "/" = false)
  ∧ test2_py.build_s3_key p s3_key (Some "") = pathlib.name p
  ∧ test2_py.build_s3_key p s3_key None = pathlib.name p
  ∧ test_py.build_s3_key p s3_key = pathlib.name p.
Proof.
  intros Hk. unfold test2_py.build_s3_key, test_py.build_s3_key. rewrite Hk.
  repeat split; try done.
  intros f Hf. destruct (strip_spec f "/") as ((n & m & Hnm) & Hs & He).
  exists (str.strip f "/"), n, m.
  destruct f; [done|]. by py_truth.
Qed.

Lemma build_s3_key_folder_and_name_witness :
  str.truthy_opt None = false
  ∧ test2_py.build_s3_key (pathlib.parse "/srv/x.png") None (Some "docs/") = "docs/x.png"
  ∧ test2_py.build_s3_key (pathlib.parse "/srv/x.png") None None = "x.png".
Proof.
  split; [done|].
  destruct (build_s3_key_folder_and_name (pathlib.parse "/srv/x.png") None eq_refl)
    as (Hf & _ & Hnone & _).
  split; [|exact Hnone].
  destruct (Hf "docs/") as (stripped & n & m & -> & -> & _); done.
Defined.

(** ** [validate_inputs] *)

Section validate_inputs_facts.
Import pathlib.
Variable w : World.
Variable local_path : string.
Let local_file_path := resolve w local_path.
Hypothesis Hexists : exists_ w local_file_path = true.
Hypothesis Hfile : is_file w local_file_path = true.

Lemma validate_document_pdf :
  str.lower (suffix local_file_path) = ".pdf" →
  test_py.validate_inputs w local_path = ([], Returned local_file_path)
  ∧ test2_py.validate_inputs w local_path false = ([], Returned local_file_path).
Proof.
  intros Hs. unfold test_py.validate_inputs, test2_py.validate_inputs.
  fold local_file_path. rewrite Hexists, Hfile, Hs. done.
Qed.

Lemma validate_document_other :
  str.lower (suffix local_file_path) ≠ ".pdf" →
  let warned := [Log WARNING "The specified file does not have a .pdf extension."] in
  test_py.validate_inputs w local_path = (warned, Returned local_file_path)
  ∧ test2_py.validate_inputs w local_path false = (warned, Returned local_file_path).
Proof.
  intros Hs. unfold test_py.validate_inputs, test2_py.validate_inputs.
  fold local_file_path. rewrite Hexists, Hfile.
  rewrite bool_decide_eq_false_2 by done. done.
Qed.

Lemma validate_image_supported :
  str.lower (suffix local_file_path) ∈ test2_py.SUPPORTED_IMAGE_EXTENSIONS →
  test2_py.validate_inputs w local_path true = ([], Returned local_file_path).
Proof.
  intros Hs. unfold test2_py.validate_inputs.
  fold local_file_path. rewrite Hexists, Hfile.
  rewrite bool_decide_eq_true_2 by done. done.
Qed.

Lemma validate_image_unsupported :
  str.lower (suffix local_file_path) ∉ test2_py.SUPPORTED_IMAGE_EXTENSIONS →
  ∃ msg, test2_py.validate_inputs w local_path true = ([Log ERROR msg], Exited 1).
Proof.
  intros Hs. unfold test2_py.validate_inputs.
  fold local_file_path. rewrite Hexists, Hfile.
  rewrite bool_decide_eq_false_2 by done. eexists. proc_run. reflexivity.
Qed.
End validate_inputs_facts.

(** ** [upload_file_to_s3] and [main] *)

Section upload_facts.
Import pathlib.
Variables (w : World) (db : mimetypes.MimeTypes).

Lemma test_py_upload p b k :
  let ct := test_py.infer_content_type db p in
  test_py.upload_file_to_s3 w db p b k =
    match s3_upload_file w (to_str p) b k {[ "ContentType" := ct ]} with
    | Some e => ([announced ct b k; called p ct b k; Log ERROR ("Upload failed: " +:+ e)],
                 Exited 1)
    | None => ([announced ct b k; called p ct b k;
                Log SUCCESS ("Upload complete: " +:+ location b k)], Returned tt)
    end.
Proof.
  intros ct. unfold test_py.upload_file_to_s3. fold ct. proc_run.
  by destruct (s3_upload_file w (to_str p) b k {[ "ContentType" := ct ]}).
Qed.

Lemma test2_py_upload p b k :
  let ct := test2_py.infer_content_type db p in
  test2_py.upload_file_to_s3 w db p b k =
    match s3_upload_file w (to_str p) b k {[ "ContentType" := ct ]} with
    | Some e => ([announced ct b k; called p ct b k; Log ERROR ("Upload failed: " +:+ e)],
                 Exited 1)
    | None => ([announced ct b k; called p ct b k;
                Log SUCCESS ("Upload complete: " +:+ location b k)],
               Returned (location b k))
    end.
Proof.
  intros ct. unfold test2_py.upload_file_to_s3. fold ct. proc_run.
  by destruct (s3_upload_file w (to_str p) b k {[ "ContentType" := ct ]}).
Qed.

(** A run that passes validation and finds a bucket name uploads once,
    under the key that [build_s3_key] gives. *)
Lemma test_py_main_continues args t p b :
  test_py.validate_inputs w (test_py.file args) = (t, Returned p) →
  str.or_ (test_py.bucket args) (AWS_BUCKET_NAME (settings w)) = Some b →
  b ≠ "" →
  let k := test_py.build_s3_key p (test_py.key args) in
  test_py.main w db args =
    (t ++ configuration_line w b :: trace (test_py.upload_file_to_s3 w db p b k),
     result (test_py.upload_file_to_s3 w db p b k)).
Proof.
  intros Hv Hb Hne k. unfold test_py.main. rewrite Hv, Hb. fold k.
  destruct b; [done|]. py_truth. proc_run.
  by destruct (test_py.upload_file_to_s3 _ _ _ _ _) as [t' o].
Qed.

Lemma test_py_main_stops args t n :
  test_py.validate_inputs w (test_py.file args) = (t, Exited n) →
  test_py.main w db args = (t, Exited n).
Proof. intros Hv. unfold test_py.main. by rewrite Hv. Qed.

Lemma test2_py_main_stops args t n is_image :
  is_image = test2_py.image args
             || bool_decide (str.lower (suffix (parse (test2_py.file args)))
                             ∈ test2_py.SUPPORTED_IMAGE_EXTENSIONS) →
  test2_py.validate_inputs w (test2_py.file args) is_image = (t, Exited n) →
  test2_py.main w db args = (t, Exited n).
Proof. intros -> Hv. unfold test2_py.main. by rewrite Hv. Qed.

Lemma test2_py_main_document args t p b :
  test2_py.image args = false →
  str.lower (suffix (parse (test2_py.file args))) ∉ test2_py.SUPPORTED_IMAGE_EXTENSIONS →
  test2_py.validate_inputs w (test2_py.file args) false = (t, Returned p) →
  str.or_ (test2_py.bucket args) (AWS_BUCKET_NAME (settings w)) = Some b →
  b ≠ "" →
  let k := test2_py.build_s3_key p (test2_py.key args) (test2_py.folder args) in
  test2_py.main w db args =
    (t ++ configuration_line w b :: trace (test2_py.upload_file_to_s3 w db p b k),
     match result (test2_py.upload_file_to_s3 w db p b k) with
     | Returned _ => Returned tt
     | Exited n => Exited n
     end).
Proof.
  intros Hi Hs Hv Hb Hne k. unfold test2_py.main.
  rewrite Hi, bool_decide_eq_false_2 by done. cbn [orb].
  rewrite Hv, Hb. fold k. destruct b; [done|]. py_truth. proc_run.
  destruct (test2_py.upload_file_to_s3 _ _ _ _ _) as [t' [s3_path|n]]; proc_run.
  - by rewrite (right_id_L [] (++)).
  - done.
Qed.

(** The three fatal paths before the upload: a missing path, a path that is
    no regular file, no bucket name. *)
Lemma validate_inputs_missing local_path is_image :
  exists_ w (resolve w local_path) = false →
  let gone := ([Log ERROR ("File not found: " +:+ to_str (resolve w local_path))],
               Exited 1) in
  test_py.validate_inputs w local_path = gone
  ∧ test2_py.validate_inputs w local_path is_image = gone.
Proof.
  intros He. unfold test_py.validate_inputs, test2_py.validate_inputs.
  by rewrite He.
Qed.

Lemma validate_inputs_not_a_file local_path is_image :
  exists_ w (resolve w local_path) = true →
  is_file w (resolve w local_path) = false →
  let refused := ([Log ERROR ("Not a file: " +:+ to_str (resolve w local_path))],
                  Exited 1) in
  test_py.validate_inputs w local_path = refused
  ∧ test2_py.validate_inputs w local_path is_image = refused.
Proof.
  intros He Hf. unfold test_py.validate_inputs, test2_py.validate_inputs.
  by rewrite He, Hf.
Qed.

Lemma test_py_main_no_bucket args t p :
  test_py.validate_inputs w (test_py.file args) = (t, Returned p) →
  str.truthy_opt (str.or_ (test_py.bucket args) (AWS_BUCKET_NAME (settings w))) = false →
  result (test_py.main w db args) = Exited 1
  ∧ uploaded_keys (trace (test_py.main w db args)) = uploaded_keys t.
Proof.
  intros Hv Hb. unfold test_py.main. rewrite Hv, Hb. proc_run.
  split; [done|]. unfold uploaded_keys. rewrite omap_app.
  apply (right_id_L [] (++)).
Qed.

Lemma uploaded_keys_app t1 t2 :
  uploaded_keys (t1 ++ t2) = uploaded_keys t1 ++ uploaded_keys t2.
Proof. apply omap_app. Qed.

Lemma success_lines_app t1 t2 :
  success_lines (t1 ++ t2) = success_lines t1 ++ success_lines t2.
Proof. apply omap_app. Qed.
End upload_facts.

Section trace_facts.
Import pathlib.
Variables (w : World) (db : mimetypes.MimeTypes).

Lemma test_py_upload_keys p b k :
  uploaded_keys (trace (test_py.upload_file_to_s3 w db p b k)) = [k].
Proof. rewrite test_py_upload. by destruct (s3_upload_file _ _ _ _ _). Qed.

Lemma test2_py_upload_keys p b k :
  uploaded_keys (trace (test2_py.upload_file_to_s3 w db p b k)) = [k].
Proof. rewrite test2_py_upload. by destruct (s3_upload_file _ _ _ _ _). Qed.

Lemma supported_lower e :
  e ∈ test2_py.SUPPORTED_IMAGE_EXTENSIONS → str.lower e = e.
Proof.
  unfold test2_py.SUPPORTED_IMAGE_EXTENSIONS.
  rewrite !elem_of_union, !elem_of_singleton. intros H.
  repeat destruct H as [H|H]; by subst e.
Qed.

Lemma pdf_unsupported : ".pdf" ∉ test2_py.SUPPORTED_IMAGE_EXTENSIONS.
Proof. apply (bool_decide_unpack _). vm_compute. exact I. Qed.
End trace_facts.

(** C6: in image mode an existing regular file whose extension, in lower
    case, is none of the six supported ones ends the process with status 1,
    and no upload is attempted; with one of the six, validation returns the
    resolved path and logs nothing. *)
Theorem validate_inputs_image_mode (w : World) (local_path : string) :
  let local_file_path := resolve w local_path in
  exists_ w local_file_path = true →
  is_file w local_file_path = true →
  (str.lower (pathlib.suffix local_file_path) ∉ test2_py.SUPPORTED_IMAGE_EXTENSIONS →
     (∃ msg, test2_py.validate_inputs w local_path true = ([Log ERROR msg], Exited 1))
     ∧ ∀ db args,
         test2_py.file args = local_path →
         test2_py.image args
         || bool_decide (str.lower (pathlib.suffix (pathlib.parse local_path))
                         ∈ test2_py.SUPPORTED_IMAGE_EXTENSIONS) = true →
         result (test2_py.main w db args) = Exited 1
         ∧ uploaded_keys (trace (test2_py.main w db args)) = [])
  ∧ (str.lower (pathlib.suffix local_file_path) ∈ test2_py.SUPPORTED_IMAGE_EXTENSIONS →
     test2_py.validate_inputs w local_path true = ([], Returned local_file_path)).
Proof.
  intros p He Hf. split.
  - intros Hs.
    destruct (validate_image_unsupported w local_path He Hf Hs) as [msg Hv].
    split; [by exists msg|].
    intros db args <- Hi.
    by rewrite (test2_py_main_stops w db args [Log ERROR msg] 1 true).
  - by apply validate_image_supported.
Qed.

Lemma validate_inputs_image_mode_witness :
  exists_ sample.calm (resolve sample.calm "notes.txt") = true
  ∧ is_file sample.calm (resolve sample.calm "notes.txt") = true
  ∧ result (test2_py.validate_inputs sample.calm "notes.txt" true) = Exited 1.
Proof.
  split; [reflexivity|]. split; [reflexivity|].
  destruct (validate_inputs_image_mode sample.calm "notes.txt" eq_refl eq_refl)
    as [Hout _].
  destruct Hout as [[msg ->] _]; [|reflexivity].
  apply (bool_decide_unpack _). vm_compute. exact I.
Defined.

(** C7: in document mode an existing regular file whose extension is not
    [.pdf] gets one warning; [validate_inputs] returns the resolved path, and
    a run that has a bucket name goes on to the upload. *)
Theorem validate_inputs_document_mode (w : World) (local_path : string) :
  let local_file_path := resolve w local_path in
  exists_ w local_file_path = true →
  is_file w local_file_path = true →
  str.lower (pathlib.suffix local_file_path) ≠ ".pdf" →
  let warned := [Log WARNING "The specified file does not have a .pdf extension."] in
  test_py.validate_inputs w local_path = (warned, Returned local_file_path)
  ∧ test2_py.validate_inputs w local_path false = (warned, Returned local_file_path)
  ∧ (∀ db args b,
       test_py.file args = local_path →
       str.or_ (test_py.bucket args) (AWS_BUCKET_NAME (settings w)) = Some b → b ≠ "" →
       uploaded_keys (trace (test_py.main w db args))
       = [test_py.build_s3_key local_file_path (test_py.key args)])
  ∧ (∀ db args b,
       test2_py.file args = local_path →
       test2_py.image args = false →
       str.lower (pathlib.suffix (pathlib.parse local_path))
         ∉ test2_py.SUPPORTED_IMAGE_EXTENSIONS →
       str.or_ (test2_py.bucket args) (AWS_BUCKET_NAME (settings w)) = Some b → b ≠ "" →
       uploaded_keys (trace (test2_py.main w db args))
       = [test2_py.build_s3_key local_file_path (test2_py.key args) (test2_py.folder args)]).
Proof.
  intros p He Hf Hs warned.
  destruct (validate_document_other w local_path He Hf Hs) as [H1 H2].
  repeat split; [done..| |].
  - intros db args b <- Hb Hne.
    rewrite (test_py_main_continues w db args warned p b) by done.
    cbn [trace fst]. rewrite uploaded_keys_app.
    change (uploaded_keys (?e :: ?t)) with (uploaded_keys t).
    by rewrite test_py_upload_keys.
  - intros db args b <- Hi Hraw Hb Hne.
    rewrite (test2_py_main_document w db args warned p b) by done.
    cbn [trace fst]. rewrite uploaded_keys_app.
    change (uploaded_keys (?e :: ?t)) with (uploaded_keys t).
    by rewrite test2_py_upload_keys.
Qed.

Lemma validate_inputs_document_mode_witness :
  exists_ sample.calm (resolve sample.calm "notes.txt") = true
  ∧ is_file sample.calm (resolve sample.calm "notes.txt") = true
  ∧ str.lower (pathlib.suffix (resolve sample.calm "notes.txt")) ≠ ".pdf"
  ∧ test_py.validate_inputs sample.calm "notes.txt"
    = ([Log WARNING "The specified file does not have a .pdf extension."],
       Returned (pathlib.parse "/srv/notes.txt")).
Proof.
  assert (Hs : str.lower (pathlib.suffix (resolve sample.calm "notes.txt")) ≠ ".pdf")
    by (vm_compute; discriminate).
  split; [reflexivity|]. split; [reflexivity|]. split; [exact Hs|].
  exact (proj1 (validate_inputs_document_mode sample.calm "notes.txt" eq_refl eq_refl Hs)).
Defined.

(** C10: the extension checks compare the lower-cased extension.  A file
    whose extension equals a supported one up to letter case passes image
    mode, and one whose extension is [.pdf] up to letter case gets no warning
    in document mode. *)
Theorem validate_inputs_ignores_case (w : World) (local_path : string) :
  let local_file_path := resolve w local_path in
  exists_ w local_file_path = true →
  is_file w local_file_path = true →
  (∀ e, e ∈ test2_py.SUPPORTED_IMAGE_EXTENSIONS →
        str.lower (pathlib.suffix local_file_path) = str.lower e →
        test2_py.validate_inputs w local_path true = ([], Returned local_file_path))
  ∧ (str.lower (pathlib.suffix local_file_path) = str.lower ".pdf" →
        test_py.validate_inputs w local_path = ([], Returned local_file_path)
        ∧ test2_py.validate_inputs w local_path false = ([], Returned local_file_path)
        ∧ warning_lines (trace (test_py.validate_inputs w local_path)) = []
        ∧ warning_lines (trace (test2_py.validate_inputs w local_path false)) = []).
Proof.
  intros p He Hf. split.
  - intros e Hin Hs. apply validate_image_supported; [done..|].
    fold p. rewrite Hs, supported_lower; done.
  - intros Hs. destruct (validate_document_pdf w local_path He Hf Hs) as [-> ->]. done.
Qed.

Lemma validate_inputs_ignores_case_witness :
  exists_ sample.calm (resolve sample.calm "chart.Jpeg") = true
  ∧ is_file sample.calm (resolve sample.calm "chart.Jpeg") = true
  ∧ pathlib.suffix (resolve sample.calm "chart.Jpeg") = ".Jpeg"
  ∧ test2_py.validate_inputs sample.calm "chart.Jpeg" true
    = ([], Returned (pathlib.parse "/srv/chart.Jpeg")).
Proof.
  split; [reflexivity|]. split; [reflexivity|]. split; [reflexivity|].
  apply (proj1 (validate_inputs_ignores_case sample.calm "chart.Jpeg" eq_refl eq_refl)
           ".jpeg"); [|reflexivity].
  apply (bool_decide_unpack _). vm_compute. exact I.
Defined.

Example validate_inputs_upper_case :
  test2_py.validate_inputs sample.calm "a.PNG" true
  = ([], Returned (pathlib.parse "/srv/a.PNG"))
  ∧ test_py.validate_inputs sample.calm "a.PDF" = ([], Returned (pathlib.parse "/srv/a.PDF"))
  ∧ test2_py.validate_inputs sample.calm "a.PDF" false
    = ([], Returned (pathlib.parse "/srv/a.PDF")).
Proof. repeat split; vm_compute; reflexivity. Qed.

(** C8: one transfer is attempted.  If the client raises, the error is
    logged and the process ends with status 1, with no second attempt; if it
    returns, the success line carries [s3://bucket/key], which [test2.py]
    also returns. *)
Theorem upload_file_to_s3_outcome (w : World) (db : mimetypes.MimeTypes)
    (p : pathlib.Path) (bucket_name object_key : string) :
  let ct := test_py.infer_content_type db p in
  let attempt := s3_upload_file w (pathlib.to_str p) bucket_name object_key
                   {[ "ContentType" := ct ]} in
  let before := [announced ct bucket_name object_key; called p ct bucket_name object_key] in
  test2_py.infer_content_type db p = ct
  ∧ (∀ e, attempt = Some e →
       test_py.upload_file_to_s3 w db p bucket_name object_key
       = (before ++ [Log ERROR ("Upload failed: " +:+ e)], Exited 1)
       ∧ test2_py.upload_file_to_s3 w db p bucket_name object_key
         = (before ++ [Log ERROR ("Upload failed: " +:+ e)], Exited 1))
  ∧ (attempt = None →
       test_py.upload_file_to_s3 w db p bucket_name object_key
       = (before ++ [Log SUCCESS ("Upload complete: s3://" +:+ bucket_name +:+ "/"
                                  +:+ object_key)],
          Returned tt)
       ∧ test2_py.upload_file_to_s3 w db p bucket_name object_key
         = (before ++ [Log SUCCESS ("Upload complete: s3://" +:+ bucket_name +:+ "/"
                                    +:+ object_key)],
            Returned ("s3://" +:+ bucket_name +:+ "/" +:+ object_key)))
  ∧ uploaded_keys (trace (test_py.upload_file_to_s3 w db p bucket_name object_key))
    = [object_key]
  ∧ uploaded_keys (trace (test2_py.upload_file_to_s3 w db p bucket_name object_key))
    = [object_key].
Proof.
  intros ct attempt before. split; [done|].
  split; [|split; [|split]].
  - intros e He. rewrite test_py_upload, test2_py_upload.
    fold ct. change (s3_upload_file _ _ _ _ _) with attempt. by rewrite He.
  - intros He. rewrite test_py_upload, test2_py_upload.
    fold ct. change (s3_upload_file _ _ _ _ _) with attempt. by rewrite He.
  - apply test_py_upload_keys.
  - apply test2_py_upload_keys.
Qed.

Example upload_file_to_s3_refused :
  result (test2_py.upload_file_to_s3 sample.refusing (test2_py.registry sample.refusing)
            (pathlib.parse "/srv/a.png") "media" "img/a.png") = Exited 1
  ∧ test2_py.upload_file_to_s3 sample.calm (test2_py.registry sample.calm)
      (pathlib.parse "/srv/a.png") "media" "img/a.png"
    = ([announced "image/png" "media" "img/a.png";
        called (pathlib.parse "/srv/a.png") "image/png" "media" "img/a.png";
        Log SUCCESS "Upload complete: s3://media/img/a.png"],
       Returned "s3://media/img/a.png").
Proof. split; vm_compute; reflexivity. Qed.

(** ** What a path that ends in [.pdf] parses to *)

Section pdf_paths.
Import pathlib.
Implicit Types (s t : string) (c a : ascii).

Lemma split_absent t sep : str.contains t sep = false → str.split t sep = [t].
Proof.
  induction t as [|a t IH]; [done|].
  cbn [str.contains str.split]. intros [Ha Ht]%orb_false_iff.
  by rewrite Ha, (IH Ht).
Qed.

Lemma split_app_last s t sep :
  str.contains t sep = false →
  ∃ l x, str.split (s +:+ t) sep = l ++ [x +:+ t] ∧ str.split s sep = l ++ [x].
Proof.
  intros Ht. induction s as [|a s (l & x & IH1 & IH2)].
  - exists [], "". by rewrite sapp_nil_l, split_absent.
  - rewrite sapp_cons. cbn [str.split]. rewrite IH1, IH2. case_bool_decide.
    + by exists ("" :: l), x.
    + destruct l as [|y l]; [by exists [], (String a x)|].
      by exists (String a y :: l), x.
Qed.

Lemma splitroot_rel s :
  (pathlib.splitroot s).2 = s
  ∨ (∃ r, s = String "/" r ∧ (pathlib.splitroot s).2 = r)
  ∨ (∃ r, s = String "/" (String "/" r) ∧ (pathlib.splitroot s).2 = r).
Proof.
  unfold pathlib.splitroot.
  case_bool_decide as H1; cbn [negb]; [|by left].
  destruct s as [|a s]; [done|].
  assert (a = "/"%char) as ->.
  { unfold str.slice_to in H1. rewrite clamp_inside in H1.
    - by injection H1.
    - rewrite len_cons. pose proof (len_nonneg s). lia. }
  destruct (negb _ || _) eqn:E.
  - right; left. exists s. by rewrite slice_from_1.
  - right; right. apply orb_false_iff in E as [E _].
    apply negb_false_iff, bool_decide_eq_true_1 in E.
    destruct s as [|b s]; [done|].
    assert (b = "/"%char) as ->.
    { unfold str.slice in E. rewrite !clamp_inside in E.
      - by injection E.
      - rewrite !len_cons. pose proof (len_nonneg s). lia.
      - rewrite !len_cons. pose proof (len_nonneg s). lia. }
    exists s. split; [done|]. cbn [snd].
    unfold str.slice_from. rewrite clamp_inside; [done|].
    rewrite !len_cons. pose proof (len_nonneg s). lia.
Qed.

(** The name of a path typed with an extension at its end is some text
    followed by that extension. *)
Lemma name_of_path_with_ext pre c e :
  c ≠ "/"%char →
  str.contains e "/" = false →
  ∃ x, name (parse (pre +:+ String "." (String c e))) = x +:+ String "." (String c e).
Proof.
  intros Hc He. set (ext := String "." (String c e)).
  assert (Hext : str.contains ext "/" = false).
  { unfold ext. cbn [str.contains]. by rewrite He, !bool_decide_eq_false_2. }
  unfold parse.
  assert (str.truthy (pre +:+ ext) = true) as -> by (by apply truthy_app_r).
  cbn [negb].
  assert (∃ rel0, (splitroot (pre +:+ ext)).2 = rel0 +:+ ext) as [rel0 Hrel].
  { destruct (splitroot_rel (pre +:+ ext)) as [->|[(r & Hs & ->)|(r & Hs & ->)]].
    - by exists pre.
    - destruct pre as [|a pre]; [done|]. rewrite sapp_cons in Hs.
      injection Hs as _ <-. by exists pre.
    - destruct pre as [|a [|b pre]]; [done|done|]. rewrite !sapp_cons in Hs.
      injection Hs as _ _ <-. by exists pre. }
  destruct (splitroot (pre +:+ ext)) as [rt rel]. cbn [snd] in Hrel. subst rel.
  destruct (split_app_last rel0 ext "/" Hext) as (l & x & -> & _).
  exists x. unfold name. cbn [tail].
  rewrite filter_app, filter_cons_True.
  - rewrite filter_nil. by rewrite last_last.
  - split; [by apply truthy_app_r|].
    destruct x as [|a [|b x]]; [done| |done].
    rewrite sapp_cons, sapp_nil_l. done.
Qed.

Lemma pdf_path_is_no_image pre :
  str.lower (suffix (parse (pre +:+ ".pdf"))) ∉ test2_py.SUPPORTED_IMAGE_EXTENSIONS.
Proof.
  destruct (name_of_path_with_ext pre "p" "df") as [x Hx]; [done..|].
  unfold suffix. rewrite Hx.
  rewrite rfind_app, len_app.
  change (str.rfind ".pdf" ".") with 0. change (str.len ".pdf") with 4.
  cbn [Z.leb Z.compare]. rewrite Z.add_0_r.
  destruct x as [|a x].
  - apply (bool_decide_unpack _). vm_compute. exact I.
  - assert (HL : 0 < str.len (String a x)).
    { rewrite len_cons. pose proof (len_nonneg x). lia. }
    destruct (Z.ltb_spec 0 (str.len (String a x))); [|lia].
    destruct (Z.ltb_spec (str.len (String a x)) (str.len (String a x) + 4 - 1)); [|lia].
    cbn [andb]. rewrite slice_from_app. apply pdf_unsupported.
Qed.
End pdf_paths.

(** ** The two scripts end to end *)

Section script_facts.
Import pathlib.
Variables (w : World) (file_arg : string).
Let local_file_path := resolve w file_arg.
Hypothesis Hexists : exists_ w local_file_path = true.
Hypothesis Hfile : is_file w local_file_path = true.

(** Document-mode validation of an existing regular file returns the
    resolved path; what it logs is neither an upload nor a success line. *)
Lemma validate_document_passes :
  ∃ t, test_py.validate_inputs w file_arg = (t, Returned local_file_path)
       ∧ test2_py.validate_inputs w file_arg false = (t, Returned local_file_path)
       ∧ uploaded_keys t = [] ∧ success_lines t = [].
Proof.
  destruct (decide (str.lower (suffix local_file_path) = ".pdf")) as [Hs|Hs].
  - exists []. by destruct (validate_document_pdf w file_arg Hexists Hfile Hs).
  - eexists. by destruct (validate_document_other w file_arg Hexists Hfile Hs).
Qed.

Lemma or_override (b : string) (o : option string) : b ≠ "" → str.or_ (Some b) o = Some b.
Proof. by destruct b. Qed.

Lemma test_py_script_run (b : string) (key : option string) :
  b ≠ "" →
  let k := test_py.build_s3_key local_file_path key in
  let ct := test_py.infer_content_type (test_py.registry w) local_file_path in
  let run := test_py.script w (test_py.mkNamespace file_arg key (Some b)) in
  uploaded_keys (trace run) = [k]
  ∧ (s3_upload_file w (to_str local_file_path) b k {[ "ContentType" := ct ]} = None →
     result run = Returned tt
     ∧ success_lines (trace run) = ["Upload complete: " +:+ location b k]).
Proof.
  intros Hb k ct run. destruct validate_document_passes as (t & Hv & _ & Hk & Hs).
  unfold run, test_py.script.
  rewrite (test_py_main_continues w _ _ t local_file_path b);
    [|done|by apply or_override|done].
  cbn [trace result fst snd test_py.key]. fold k.
  rewrite uploaded_keys_app, success_lines_app, Hk, Hs.
  change (uploaded_keys (?e :: ?t)) with (uploaded_keys t).
  change (success_lines (configuration_line w b :: ?t)) with (success_lines t).
  split; [apply test_py_upload_keys|].
  intros Hok. rewrite test_py_upload. fold ct. by rewrite Hok.
Qed.

Lemma test2_py_script_run (b : string) (key opt_folder : option string) :
  b ≠ "" →
  str.lower (suffix (parse file_arg)) ∉ test2_py.SUPPORTED_IMAGE_EXTENSIONS →
  let k := test2_py.build_s3_key local_file_path key
             (Some (default "dummy_image" opt_folder)) in
  let ct := test2_py.infer_content_type (test2_py.registry w) local_file_path in
  let run := test2_py.script w (test2_py.mkCommandLine file_arg key opt_folder (Some b) false) in
  uploaded_keys (trace run) = [k]
  ∧ (s3_upload_file w (to_str local_file_path) b k {[ "ContentType" := ct ]} = None →
     result run = Returned tt
     ∧ success_lines (trace run) = ["Upload complete: " +:+ location b k]).
Proof.
  intros Hb Hraw k ct run. destruct validate_document_passes as (t & _ & Hv & Hk & Hs).
  unfold run, test2_py.script.
  rewrite (test2_py_main_document w _ _ t local_file_path b);
    [|done|done|done|by apply or_override|done].
  cbn [trace result fst snd test2_py.key test2_py.folder test2_py.parse_args
       test2_py.opt_key test2_py.opt_folder]. fold k.
  rewrite uploaded_keys_app, success_lines_app, Hk, Hs.
  change (uploaded_keys (?e :: ?t)) with (uploaded_keys t).
  change (success_lines (configuration_line w b :: ?t)) with (success_lines t).
  split; [apply test2_py_upload_keys|].
  intros Hok. rewrite test2_py_upload. fold ct. by rewrite Hok.
Qed.
End script_facts.

(** C2, as stated: with a bucket override, an existing [.pdf] file and no
    explicit key, the key handed to the upload is the file's base name.  Under
    [test2.py] it is the base name behind the default folder. *)
Lemma script_pdf_key_has_folder_prefix :
  uploaded_keys (trace (test2_py.script sample.calm
     (test2_py.mkCommandLine "report.pdf" None None (Some "media") false)))
  = ["dummy_image/report.pdf"]
  ∧ pathlib.name (resolve sample.calm "report.pdf") = "report.pdf"
  ∧ uploaded_keys (trace (test2_py.script sample.calm
       (test2_py.mkCommandLine "report.pdf" None None (Some "media") false)))
    ≠ [pathlib.name (resolve sample.calm "report.pdf")]
  ∧ success_lines (trace (test2_py.script sample.calm
       (test2_py.mkCommandLine "report.pdf" None None (Some "media") false)))
    = ["Upload complete: s3://media/dummy_image/report.pdf"].
Proof. repeat split; vm_compute; (reflexivity || discriminate). Qed.

(** C2, amended: with a non-empty bucket override, an existing regular file
    and no explicit key, [test.py] uploads under the base name of the resolved
    path and, when the transfer returns, logs the success line with
    [s3://bucket/name].  [test2.py] run without [--image] on a typed path
    whose extension is no supported image extension (every path typed with
    [.pdf] at its end is such a path) uploads under the stripped folder, a
    slash and the base name, the folder being [dummy_image] unless [--folder]
    says otherwise; only an empty [--folder] gives the bare base name.  Its
    success line carries [s3://bucket/key] for that key.  [test2.py] run with
    [--image] on a file whose resolved extension is no supported image
    extension (a [.pdf] file among them) ends with status 1 and uploads
    nothing. *)
Theorem script_destination_key (w : World) (file_arg b : string) :
  let local_file_path := resolve w file_arg in
  let name := pathlib.name local_file_path in
  exists_ w local_file_path = true →
  is_file w local_file_path = true →
  b ≠ "" →
  (let run := test_py.script w (test_py.mkNamespace file_arg None (Some b)) in
   let ct := test_py.infer_content_type (test_py.registry w) local_file_path in
   uploaded_keys (trace run) = [name]
   ∧ (s3_upload_file w (pathlib.to_str local_file_path) b name {[ "ContentType" := ct ]}
      = None →
      result run = Returned tt
      ∧ success_lines (trace run) = ["Upload complete: s3://" +:+ b +:+ "/" +:+ name]))
  ∧ (∀ opt_folder,
       str.lower (pathlib.suffix (pathlib.parse file_arg))
         ∉ test2_py.SUPPORTED_IMAGE_EXTENSIONS →
       let run := test2_py.script w
                    (test2_py.mkCommandLine file_arg None opt_folder (Some b) false) in
       let ct := test2_py.infer_content_type (test2_py.registry w) local_file_path in
       let key := if str.truthy (default "dummy_image" opt_folder)
                  then str.strip (default "dummy_image" opt_folder) "/" +:+ "/" +:+ name
                  else name in
       uploaded_keys (trace run) = [key]
       ∧ (opt_folder = None → key = "dummy_image/" +:+ name)
       ∧ (opt_folder = Some "" → key = name)
       ∧ (s3_upload_file w (pathlib.to_str local_file_path) b key {[ "ContentType" := ct ]}
          = None →
          result run = Returned tt
          ∧ success_lines (trace run) = ["Upload complete: s3://" +:+ b +:+ "/" +:+ key]))
  ∧ (∀ pre, file_arg = pre +:+ ".pdf" →
       str.lower (pathlib.suffix (pathlib.parse file_arg))
         ∉ test2_py.SUPPORTED_IMAGE_EXTENSIONS)
  ∧ (∀ opt_folder,
       str.lower (pathlib.suffix local_file_path) ∉ test2_py.SUPPORTED_IMAGE_EXTENSIONS →
       let run := test2_py.script w
                    (test2_py.mkCommandLine file_arg None opt_folder (Some b) true) in
       result run = Exited 1
       ∧ uploaded_keys (trace run) = []
       ∧ success_lines (trace run) = [])
  ∧ (str.lower (pathlib.suffix local_file_path) = ".pdf" →
     str.lower (pathlib.suffix local_file_path) ∉ test2_py.SUPPORTED_IMAGE_EXTENSIONS).
Proof.
  intros p name He Hf Hb. split; [|split; [|split; [|split]]].
  3:{ intros pre ->. apply pdf_path_is_no_image. }
  3:{ intros opt_folder Hs run.
      destruct (validate_image_unsupported w file_arg He Hf Hs) as [msg Hv].
      unfold run, test2_py.script.
      by rewrite (test2_py_main_stops w _ _ [Log ERROR msg] 1 true). }
  3:{ intros ->. apply pdf_unsupported. }
  - intros run ct. exact (test_py_script_run w file_arg He Hf b None Hb).
  - intros opt_folder Hraw run ct key.
    pose proof (test2_py_script_run w file_arg He Hf b None opt_folder Hb Hraw) as [Hk Hs].
    repeat split; try done.
    + by intros ->.
    + by intros ->.
    + by apply Hs.
    + by apply Hs.
Qed.

Lemma script_destination_key_witness :
  exists_ sample.calm (resolve sample.calm "report.pdf") = true
  ∧ is_file sample.calm (resolve sample.calm "report.pdf") = true
  ∧ "media" ≠ ""
  ∧ uploaded_keys (trace (test_py.script sample.calm
       (test_py.mkNamespace "report.pdf" None (Some "media")))) = ["report.pdf"].
Proof.
  split; [reflexivity|]. split; [reflexivity|]. split; [done|].
  exact (proj1 (proj1 (script_destination_key sample.calm "report.pdf" "media"
                         eq_refl eq_refl ltac:(done)))).
Defined.

(** ** [infer_content_type] *)

Section infer_content_type_facts.
Import pathlib.
Variable s : string.
Variables stem ext : string.
Hypothesis Hname : name (parse s) = stem +:+ ext.
Hypothesis Hstem : str.lstrip stem "." ≠ "".

(** Both scripts define the same function. *)
Lemma infer_content_type_same db p :
  test2_py.infer_content_type db p = test_py.infer_content_type db p.
Proof. reflexivity. Qed.

Lemma infer_by_table db e :
  ext = String "." e →
  str.contains e "." = false →
  mimetypes.suffix_map !! str.lower ext = None →
  mimetypes.encodings_map !! ext = None →
  test_py.infer_content_type db (parse s) =
    match mimetypes.types_map db !! str.lower ext with
    | Some type => if str.truthy type then type else "application/octet-stream"
    | None => "application/octet-stream"
    end.
Proof.
  intros -> Hdot Hsuf Henc. unfold test_py.infer_content_type.
  rewrite (guess_type_ext db s stem e) by done.
  by destruct (mimetypes.types_map db !! _).
Qed.

Lemma infer_registered db type :
  str.lower ext = ".pdf" ∨ str.lower ext = ".webp" →
  mimetypes.types_map db !! str.lower ext = Some type →
  type ≠ "" →
  test_py.infer_content_type db (parse s) = type.
Proof.
  intros Hext Hin Htype.
  destruct (aliases_miss ext Hext) as [Hsuf Henc].
  assert (∃ e, ext = String "." e ∧ str.contains e "." = false) as (e & He & Hdot).
  { destruct Hext as [H|H]; by apply (lower_ext_shape _ _ H). }
  rewrite (infer_by_table db e He Hdot Hsuf Henc), Hin.
  by destruct type.
Qed.
End infer_content_type_facts.

(** C9, as stated: a path ending in [.pdf] gives [application/pdf], one
    ending in [.webp] gives [image/webp], and an extension without an entry
    in the type table gives [application/octet-stream].  The file named
    [.pdf] has no extension for [mimetypes] and gets the fallback; [test.py]
    registers [.pdf] only, so [.webp] gets the fallback when the interpreter's
    strict table lacks it; [.tgz] has no entry in the type table and is still
    typed as a tar archive, through the alias table. *)
Lemma infer_content_type_misses :
  test_py.infer_content_type (test_py.registry sample.calm) (pathlib.parse "/srv/.pdf")
  = "application/octet-stream"
  ∧ test2_py.infer_content_type (test2_py.registry sample.calm) (pathlib.parse "/srv/.pdf")
    = "application/octet-stream"
  ∧ test_py.infer_content_type (test_py.registry sample.calm)
      (pathlib.parse "/srv/image.webp") = "application/octet-stream"
  ∧ mimetypes.types_map (test2_py.registry scene.stock) !! ".tgz" = None
  ∧ test2_py.infer_content_type (test2_py.registry scene.stock)
      (pathlib.parse "/srv/backup.tgz") = "application/x-tar".
Proof. repeat split; vm_compute; reflexivity. Qed.

(** C9, amended: [infer_content_type] always returns a type, and the type
    depends on the registry and the path string alone (no other part of the
    world enters it).  For a path without a URL scheme whose name is a stem
    that is not made of dots only, followed by an extension: [.pdf] in any
    letter case gives [application/pdf] under both scripts' registries;
    [.webp] in any letter case gives [image/webp] under the registry of
    [test2.py], and under that of [test.py] it gives [image/webp] when the
    interpreter's strict table maps it so and [application/octet-stream]
    when that table has no entry for it; an ASCII extension that has no entry
    in the type table and is no key of [mimetypes]' suffix aliases ([.tgz]
    and the like) or of its encodings ([.gz] and the like) gives
    [application/octet-stream]. *)
Theorem infer_content_type_by_extension (w : World) (s stem ext : string) :
  let file_path := pathlib.parse s in
  mimetypes.no_scheme (pathlib.to_str file_path) = true →
  pathlib.name file_path = stem +:+ ext →
  str.lstrip stem "." ≠ "" →
  (str.lower ext = ".pdf" →
     test_py.infer_content_type (test_py.registry w) file_path = "application/pdf"
     ∧ test2_py.infer_content_type (test2_py.registry w) file_path = "application/pdf")
  ∧ (str.lower ext = ".webp" →
     test2_py.infer_content_type (test2_py.registry w) file_path = "image/webp"
     ∧ (system_types w !! ".webp" = Some "image/webp" →
        test_py.infer_content_type (test_py.registry w) file_path = "image/webp")
     ∧ (system_types w !! ".webp" = None →
        test_py.infer_content_type (test_py.registry w) file_path
        = "application/octet-stream"))
  ∧ (∀ db e,
       ext = String "." e → str.contains e "." = false →
       isascii ext = true →
       mimetypes.types_map db !! str.lower ext = None →
       mimetypes.suffix_map !! str.lower ext = None →
       mimetypes.encodings_map !! ext = None →
       test_py.infer_content_type db file_path = "application/octet-stream"
       ∧ test2_py.infer_content_type db file_path = "application/octet-stream")
  ∧ (∀ w', system_types w' = system_types w →
       test_py.infer_content_type (test_py.registry w') file_path
       = test_py.infer_content_type (test_py.registry w) file_path
       ∧ test2_py.infer_content_type (test2_py.registry w') file_path
         = test2_py.infer_content_type (test2_py.registry w) file_path).
Proof.
  cbv zeta. intros _ Hname Hstem. split; [|split; [|split]].
  4:{ intros w' Hw. unfold test_py.registry, test2_py.registry. by rewrite Hw. }
  - intros Hext. change test2_py.infer_content_type with test_py.infer_content_type.
    split; apply (infer_registered s stem ext Hname Hstem); auto; rewrite Hext;
      unfold test_py.registry, test2_py.registry, mimetypes.add_type;
      cbn [mimetypes.types_map]; by simplify_map_eq.
  - intros Hext. change test2_py.infer_content_type with test_py.infer_content_type.
    split; [|split; intros Hsys].
    3:{ destruct (aliases_miss ext (or_intror Hext)) as [Hsuf Henc].
        destruct (lower_ext_shape ext "webp" Hext eq_refl) as (e & He & Hdot).
        rewrite (infer_by_table s stem ext Hname Hstem _ e He Hdot Hsuf Henc), Hext.
        unfold test_py.registry, mimetypes.add_type. cbn [mimetypes.types_map].
        by simplify_map_eq. }
    all: apply (infer_registered s stem ext Hname Hstem); auto; rewrite Hext;
      unfold test_py.registry, test2_py.registry, mimetypes.add_type;
      cbn [mimetypes.types_map]; by simplify_map_eq.
  - intros db e He Hdot _ Htypes Hsuf Henc. change test2_py.infer_content_type with test_py.infer_content_type.
    rewrite (infer_by_table s stem ext Hname Hstem db e He Hdot Hsuf Henc), Htypes.
    done.
Qed.

Lemma infer_content_type_by_extension_witness :
  mimetypes.no_scheme (pathlib.to_str (pathlib.parse "/srv/report.pdf")) = true
  ∧ pathlib.name (pathlib.parse "/srv/report.pdf") = "report" +:+ ".pdf"
  ∧ str.lstrip "report" "." ≠ ""
  ∧ test_py.infer_content_type (test_py.registry sample.calm)
      (pathlib.parse "/srv/report.pdf") = "application/pdf".
Proof.
  split; [reflexivity|]. split; [reflexivity|]. split; [done|].
  refine (proj1 (proj1 (infer_content_type_by_extension sample.calm "/srv/report.pdf"
                          "report" ".pdf" eq_refl eq_refl _) eq_refl)).
  done.
Defined.

Example infer_content_type_spec_examples :
  test2_py.infer_content_type (test2_py.registry sample.calm) (pathlib.parse "report.pdf")
  = "application/pdf"
  ∧ test2_py.infer_content_type (test2_py.registry sample.calm) (pathlib.parse "image.webp")
    = "image/webp"
  ∧ test2_py.infer_content_type (test2_py.registry sample.calm)
      (pathlib.parse "file.unknownext") = "application/octet-stream"
  ∧ test_py.infer_content_type (test_py.registry sample.calm) (pathlib.parse "/srv/.pdf")
    = "application/octet-stream".
Proof. repeat split; vm_compute; reflexivity. Qed.

(** * Beyond the stated claims *)

Section whole_runs.
Import pathlib.
Variables (w : World) (db : mimetypes.MimeTypes).

(** What validation logs is log lines only. *)
Lemma test_py_validate_logs_only local_path :
  upload_calls (trace (test_py.validate_inputs w local_path)) = []
  ∧ success_lines (trace (test_py.validate_inputs w local_path)) = []
  ∧ uploaded_keys (trace (test_py.validate_inputs w local_path)) = [].
Proof.
  unfold test_py.validate_inputs.
  destruct (exists_ _ _), (is_file _ _); try done.
  by case_bool_decide.
Qed.

Lemma test2_py_validate_logs_only local_path is_image :
  upload_calls (trace (test2_py.validate_inputs w local_path is_image)) = []
  ∧ success_lines (trace (test2_py.validate_inputs w local_path is_image)) = []
  ∧ uploaded_keys (trace (test2_py.validate_inputs w local_path is_image)) = [].
Proof.
  unfold test2_py.validate_inputs.
  destruct (exists_ _ _), (is_file _ _), is_image; try done.
  all: by case_bool_decide.
Qed.

Lemma upload_calls_app t1 t2 : upload_calls (t1 ++ t2) = upload_calls t1 ++ upload_calls t2.
Proof. apply omap_app. Qed.

Lemma error_lines_app t1 t2 : error_lines (t1 ++ t2) = error_lines t1 ++ error_lines t2.
Proof. apply omap_app. Qed.

(** [test2.py]'s [main] once validation has returned and a bucket name is
    found: the configuration line, the upload, and after a transfer that
    returned, in image mode, the hint block. *)
Lemma test2_py_main_passes args tv p b :
  test2_py.validate_inputs w (test2_py.file args) (image_mode args) = (tv, Returned p) →
  str.or_ (test2_py.bucket args) (AWS_BUCKET_NAME (settings w)) = Some b →
  b ≠ "" →
  let k := test2_py.build_s3_key p (test2_py.key args) (test2_py.folder args) in
  let U := test2_py.upload_file_to_s3 w db p b k in
  test2_py.main w db args =
    match result U with
    | Returned _ =>
        (tv ++ configuration_line w b :: trace U
            ++ (if image_mode args then endpoint_hint k (name p) b else []),
         Returned tt)
    | Exited n => (tv ++ configuration_line w b :: trace U, Exited n)
    end.
Proof.
  intros Hv Hb Hne. cbv zeta. unfold test2_py.main. fold (image_mode args).
  rewrite Hv, Hb. destruct b; [done|]. py_truth. proc_run.
  destruct (test2_py.upload_file_to_s3 _ _ _ _ _) as [tu [s3_path|n]]; proc_run; [|done].
  destruct (image_mode args); proc_run; [done|].
  by rewrite !(right_id_L [] (++)).
Qed.

Lemma test2_py_main_halts args t n :
  test2_py.validate_inputs w (test2_py.file args) (image_mode args) = (t, Exited n) →
  test2_py.main w db args = (t, Exited n).
Proof. intros Hv. by apply (test2_py_main_stops w db args t n (image_mode args)). Qed.

Lemma test2_py_main_no_bucket args tv p :
  test2_py.validate_inputs w (test2_py.file args) (image_mode args) = (tv, Returned p) →
  str.truthy_opt (str.or_ (test2_py.bucket args) (AWS_BUCKET_NAME (settings w))) = false →
  test2_py.main w db args = (tv ++ [no_bucket_line], Exited 1).
Proof.
  intros Hv Hb. unfold test2_py.main. fold (image_mode args).
  by rewrite Hv, Hb.
Qed.

Lemma test_py_main_without_bucket args tv p :
  test_py.validate_inputs w (test_py.file args) = (tv, Returned p) →
  str.truthy_opt (str.or_ (test_py.bucket args) (AWS_BUCKET_NAME (settings w))) = false →
  test_py.main w db args = (tv ++ [no_bucket_line], Exited 1).
Proof. intros Hv Hb. unfold test_py.main. by rewrite Hv, Hb. Qed.

Lemma test_py_main_calls args tv p b :
  test_py.validate_inputs w (test_py.file args) = (tv, Returned p) →
  str.or_ (test_py.bucket args) (AWS_BUCKET_NAME (settings w)) = Some b →
  b ≠ "" →
  upload_calls (trace (test_py.main w db args))
  = [(to_str p, b, test_py.build_s3_key p (test_py.key args),
      {[ "ContentType" := test_py.infer_content_type db p ]})].
Proof.
  intros Hv Hb Hne.
  rewrite (test_py_main_continues w db args tv p b) by done.
  cbn [trace fst]. rewrite upload_calls_app.
  pose proof (test_py_validate_logs_only (test_py.file args)) as [Hu _].
  rewrite Hv in Hu. cbn [trace fst] in Hu. rewrite Hu, test_py_upload.
  by destruct (s3_upload_file _ _ _ _ _).
Qed.

Lemma test2_py_main_calls args tv p b :
  test2_py.validate_inputs w (test2_py.file args) (image_mode args) = (tv, Returned p) →
  str.or_ (test2_py.bucket args) (AWS_BUCKET_NAME (settings w)) = Some b →
  b ≠ "" →
  upload_calls (trace (test2_py.main w db args))
  = [(to_str p, b, test2_py.build_s3_key p (test2_py.key args) (test2_py.folder args),
      {[ "ContentType" := test2_py.infer_content_type db p ]})].
Proof.
  intros Hv Hb Hne.
  rewrite (test2_py_main_passes args tv p b) by done.
  pose proof (test2_py_validate_logs_only (test2_py.file args) (image_mode args))
    as [Hu _].
  rewrite Hv in Hu. cbn [trace fst] in Hu. rewrite test2_py_upload.
  destruct (s3_upload_file _ _ _ _ _), (image_mode args);
    cbn [result snd trace fst]; by rewrite upload_calls_app, Hu.
Qed.

Lemma infer_content_type_nonempty p : test_py.infer_content_type db p ≠ "".
Proof.
  unfold test_py.infer_content_type.
  by destruct (mimetypes.guess_type db (to_str p)) as [[[|a t]|] enc].
Qed.

Lemma truthy_opt_Some (o : option string) :
  str.truthy_opt o = true → ∃ b, o = Some b ∧ b ≠ "".
Proof. destruct o as [[|a b]|]; [done| |done]. intros _. by eexists. Qed.
End whole_runs.

(** X1: when [validate_inputs] returns, the path it returns is the resolved
    one, it exists and it is a regular file; in image mode its extension, in
    lower case, is moreover a supported one. *)
Theorem validate_inputs_returns_checked_path (w : World) (local_path : string)
    (p : pathlib.Path) :
  (result (test_py.validate_inputs w local_path) = Returned p →
     p = resolve w local_path ∧ exists_ w p = true ∧ is_file w p = true)
  ∧ (∀ is_image,
       result (test2_py.validate_inputs w local_path is_image) = Returned p →
       p = resolve w local_path ∧ exists_ w p = true ∧ is_file w p = true
       ∧ (is_image = true →
          str.lower (pathlib.suffix p) ∈ test2_py.SUPPORTED_IMAGE_EXTENSIONS)).
Proof.
  split; [|intros is_image];
    unfold test_py.validate_inputs, test2_py.validate_inputs;
    destruct (exists_ w (resolve w local_path)) eqn:He;
    destruct (is_file w (resolve w local_path)) eqn:Hf; try done.
  - case_bool_decide; proc_run; by intros [= <-].
  - destruct is_image; case_bool_decide; proc_run; try done; by intros [= <-].
Qed.

(** X2: in a run in which the path resolves and [exists()] and [is_file()]
    answer (neither raises), whatever the two answers are, [validate_inputs]
    calls no upload and logs at most one line; when it ends the process the
    status is 1 and the one line is an error, and when it returns it has
    logged no error. *)
Theorem validate_inputs_effects (w : World) (local_path : string) (is_image : bool)
    (found regular : bool) :
  exists_ w (resolve w local_path) = found →
  is_file w (resolve w local_path) = regular →
  let checks (m : Proc pathlib.Path) :=
    (length (trace m) ≤ 1)%nat
    ∧ upload_calls (trace m) = []
    ∧ (∀ n, result m = Exited n → n = 1 ∧ ∃ msg, trace m = [Log ERROR msg])
    ∧ (∀ p, result m = Returned p → error_lines (trace m) = []) in
  checks (test_py.validate_inputs w local_path)
  ∧ checks (test2_py.validate_inputs w local_path is_image).
Proof.
  cbv zeta. intros He Hf. unfold test_py.validate_inputs, test2_py.validate_inputs.
  rewrite He, Hf.
  destruct found, regular, is_image; repeat case_bool_decide; proc_run.
  all: split; (split; [cbn; lia|split; [done|split]]).
  all: first [by intros ? [=] | by intros ? [= <-]; eauto | done].
Qed.

Lemma validate_inputs_effects_witness :
  exists_ scene.folders (resolve scene.folders "docs") = true
  ∧ is_file scene.folders (resolve scene.folders "docs") = false
  ∧ upload_calls (trace (test2_py.validate_inputs scene.folders "docs" true)) = []
  ∧ (length (trace (test2_py.validate_inputs scene.folders "docs" true)) ≤ 1)%nat.
Proof.
  split; [reflexivity|]. split; [reflexivity|].
  destruct (validate_inputs_effects scene.folders "docs" true true false eq_refl eq_refl)
    as [_ (Hlen & Hcalls & _)].
  by split.
Defined.

(** X3: once the command line is parsed and the path has resolved, a path
    for which [exists()] answers [False] ends either script's [main] with
    status 1 after the one line [File not found], before the bucket is looked
    at and without any upload, whatever the other arguments are. *)
Theorem missing_path_ends_the_run (w : World) (db : mimetypes.MimeTypes)
    (file_arg : string) :
  exists_ w (resolve w file_arg) = false →
  let gone := ([Log ERROR ("File not found: " +:+ pathlib.to_str (resolve w file_arg))],
               Exited 1) in
  (∀ key bucket, test_py.main w db (test_py.mkNamespace file_arg key bucket) = gone)
  ∧ (∀ key folder bucket image,
       test2_py.main w db (test2_py.mkNamespace file_arg key folder bucket image) = gone).
Proof.
  intros He gone. split.
  - intros key bucket. apply test_py_main_stops.
    by apply (validate_inputs_missing w file_arg false).
  - intros key folder bucket image. apply test2_py_main_halts.
    by apply (validate_inputs_missing w file_arg).
Qed.

Lemma missing_path_ends_the_run_witness :
  exists_ scene.bare (resolve scene.bare "report.pdf") = false
  ∧ test2_py.script scene.bare
      (test2_py.mkCommandLine "report.pdf" None None (Some "media") false)
    = ([Log ERROR "File not found: /srv/report.pdf"], Exited 1).
Proof.
  split; [reflexivity|].
  exact (proj2 (missing_path_ends_the_run scene.bare (test2_py.registry scene.bare)
                  "report.pdf" eq_refl) None (Some "dummy_image") (Some "media") false).
Defined.

(** X4: a path that exists and is no regular file (a directory) ends either
    script with status 1 after the one line [Not a file], without any
    upload, whatever the other arguments are. *)
Theorem directory_ends_the_run (w : World) (db : mimetypes.MimeTypes)
    (file_arg : string) :
  exists_ w (resolve w file_arg) = true →
  is_file w (resolve w file_arg) = false →
  let refused := ([Log ERROR ("Not a file: " +:+ pathlib.to_str (resolve w file_arg))],
                  Exited 1) in
  (∀ key bucket, test_py.main w db (test_py.mkNamespace file_arg key bucket) = refused)
  ∧ (∀ key folder bucket image,
       test2_py.main w db (test2_py.mkNamespace file_arg key folder bucket image)
       = refused).
Proof.
  intros He Hf refused. split.
  - intros key bucket. apply test_py_main_stops.
    by apply (validate_inputs_not_a_file w file_arg false).
  - intros key folder bucket image. apply test2_py_main_halts.
    by apply (validate_inputs_not_a_file w file_arg).
Qed.

Lemma directory_ends_the_run_witness :
  exists_ scene.folders (resolve scene.folders "docs") = true
  ∧ is_file scene.folders (resolve scene.folders "docs") = false
  ∧ test_py.script scene.folders (test_py.mkNamespace "docs" None (Some "media"))
    = ([Log ERROR "Not a file: /srv/docs"], Exited 1).
Proof.
  split; [reflexivity|]. split; [reflexivity|].
  exact (proj1 (directory_ends_the_run scene.folders (test_py.registry scene.folders)
                  "docs" eq_refl eq_refl) None (Some "media")).
Defined.

(** X5: when validation has returned and neither [--bucket] nor the
    configuration gives a non-empty bucket name, either script logs what
    validation logged, then the bucket error, and ends with status 1; no
    upload is attempted. *)
Theorem no_bucket_ends_the_run (w : World) (db : mimetypes.MimeTypes)
    (bucket : option string) :
  str.truthy_opt (str.or_ bucket (AWS_BUCKET_NAME (settings w))) = false →
  (∀ file key tv p,
     test_py.validate_inputs w file = (tv, Returned p) →
     test_py.main w db (test_py.mkNamespace file key bucket)
     = (tv ++ [no_bucket_line], Exited 1)
     ∧ upload_calls (trace (test_py.main w db (test_py.mkNamespace file key bucket))) = [])
  ∧ (∀ args tv p,
       test2_py.bucket args = bucket →
       test2_py.validate_inputs w (test2_py.file args) (image_mode args) = (tv, Returned p) →
       test2_py.main w db args = (tv ++ [no_bucket_line], Exited 1)
       ∧ upload_calls (trace (test2_py.main w db args)) = []).
Proof.
  intros Hb. split.
  - intros file key tv p Hv.
    rewrite (test_py_main_without_bucket w db _ tv p) by done.
    split; [done|]. cbn [trace fst]. rewrite upload_calls_app.
    pose proof (test_py_validate_logs_only w file) as [Hu _].
    rewrite Hv in Hu. cbn [trace fst] in Hu. by rewrite Hu.
  - intros args tv p <- Hv.
    rewrite (test2_py_main_no_bucket w db _ tv p) by done.
    split; [done|]. cbn [trace fst]. rewrite upload_calls_app.
    pose proof (test2_py_validate_logs_only w (test2_py.file args) (image_mode args))
      as [Hu _].
    rewrite Hv in Hu. cbn [trace fst] in Hu. by rewrite Hu.
Qed.

Lemma no_bucket_ends_the_run_witness :
  str.truthy_opt (str.or_ (Some "") (AWS_BUCKET_NAME (settings sample.calm))) = false
  ∧ test_py.script sample.calm (test_py.mkNamespace "notes.txt" None (Some ""))
    = ([Log WARNING "The specified file does not have a .pdf extension."; no_bucket_line],
       Exited 1).
Proof.
  split; [reflexivity|].
  exact (proj1 (proj1 (no_bucket_ends_the_run sample.calm (test_py.registry sample.calm)
                         (Some "") eq_refl)
                  "notes.txt" None _ _ eq_refl)).
Defined.

(** X6: the bucket of the upload call is the [--bucket] value when that is
    not empty, whatever the configuration holds, and the configured
    [AWS_BUCKET_NAME] when [--bucket] is absent or empty; the call carries the
    resolved path, the key of [build_s3_key] and the inferred content type. *)
Theorem upload_bucket_resolution (w : World) (db : mimetypes.MimeTypes) (b : string) :
  b ≠ "" →
  let chosen (override : option string) :=
    override = Some b
    ∨ (str.truthy_opt override = false ∧ AWS_BUCKET_NAME (settings w) = Some b) in
  (∀ args tv p,
     test_py.validate_inputs w (test_py.file args) = (tv, Returned p) →
     chosen (test_py.bucket args) →
     upload_calls (trace (test_py.main w db args))
     = [(pathlib.to_str p, b, test_py.build_s3_key p (test_py.key args),
         {[ "ContentType" := test_py.infer_content_type db p ]})])
  ∧ (∀ args tv p,
       test2_py.validate_inputs w (test2_py.file args) (image_mode args) = (tv, Returned p) →
       chosen (test2_py.bucket args) →
       upload_calls (trace (test2_py.main w db args))
       = [(pathlib.to_str p, b,
           test2_py.build_s3_key p (test2_py.key args) (test2_py.folder args),
           {[ "ContentType" := test2_py.infer_content_type db p ]})]).
Proof.
  intros Hb chosen.
  assert (Hor : ∀ o, chosen o → str.or_ o (AWS_BUCKET_NAME (settings w)) = Some b).
  { intros o [->|[Ho Hs]]; [by destruct b|]. unfold str.or_. by rewrite Ho. }
  split; intros args tv p Hv Hc.
  - by apply (test_py_main_calls w db args tv p b); auto.
  - by apply (test2_py_main_calls w db args tv p b); auto.
Qed.

Lemma upload_bucket_resolution_witness :
  "vault" ≠ ""
  ∧ upload_calls (trace (test_py.script scene.configured
                           (test_py.mkNamespace "report.pdf" None (Some ""))))
    = [("/srv/report.pdf", "vault", "report.pdf",
        {[ "ContentType" := "application/pdf" ]})].
Proof.
  split; [done|].
  refine (proj1 (upload_bucket_resolution scene.configured
                   (test_py.registry scene.configured) "vault" _)
            (test_py.mkNamespace "report.pdf" None (Some "")) _ _ eq_refl _).
  - done.
  - right. split; reflexivity.
Defined.

(** X7: a run of [test.py] that passes validation and has a bucket name logs,
    in this order, what validation logged, the configuration, the
    announcement of the transfer, then calls the client once and logs either
    the success line (normal end) or the error line (status 1). *)
Theorem test_py_main_in_order (w : World) (db : mimetypes.MimeTypes)
    (args : test_py.Namespace) (tv : list event) (p : pathlib.Path) (b : string) :
  test_py.validate_inputs w (test_py.file args) = (tv, Returned p) →
  str.or_ (test_py.bucket args) (AWS_BUCKET_NAME (settings w)) = Some b →
  b ≠ "" →
  let k := test_py.build_s3_key p (test_py.key args) in
  let ct := test_py.infer_content_type db p in
  let head := tv ++ [configuration_line w b; announced ct b k; called p ct b k] in
  match s3_upload_file w (pathlib.to_str p) b k {[ "ContentType" := ct ]} with
  | None =>
      test_py.main w db args
      = (head ++ [Log SUCCESS ("Upload complete: " +:+ location b k)], Returned tt)
  | Some e =>
      test_py.main w db args
      = (head ++ [Log ERROR ("Upload failed: " +:+ e)], Exited 1)
  end.
Proof.
  intros Hv Hb Hne k ct head.
  rewrite (test_py_main_continues w db args tv p b) by done.
  fold k. rewrite test_py_upload. fold ct. unfold head.
  destruct (s3_upload_file _ _ _ _ _); cbn [trace result fst snd];
    by rewrite <- (assoc_L (++)).
Qed.

Lemma test_py_main_in_order_witness :
  test_py.validate_inputs sample.refusing "notes.txt"
  = ([Log WARNING "The specified file does not have a .pdf extension."],
     Returned (pathlib.parse "/srv/notes.txt"))
  ∧ str.or_ (Some "media") (AWS_BUCKET_NAME (settings sample.refusing)) = Some "media"
  ∧ "media" ≠ ""
  ∧ result (test_py.main sample.refusing (test_py.registry sample.refusing)
              (test_py.mkNamespace "notes.txt" None (Some "media"))) = Exited 1.
Proof.
  split; [reflexivity|]. split; [reflexivity|]. split; [done|].
  pose proof (test_py_main_in_order sample.refusing (test_py.registry sample.refusing)
                (test_py.mkNamespace "notes.txt" None (Some "media")) _ _ "media"
                eq_refl eq_refl ltac:(done)) as H.
  cbv zeta in H. cbn [s3_upload_file sample.refusing] in H. by rewrite H.
Defined.

(** X8: a run of [test2.py] that passes validation and has a bucket name
    logs the same lines in the same order; after a transfer that returned, in
    image mode only, the six lines of the endpoint block follow, with the key
    that was uploaded, the base name of the resolved file and the bucket.
    After a transfer that raised nothing follows the error line. *)
Theorem test2_py_main_in_order (w : World) (db : mimetypes.MimeTypes)
    (args : test2_py.Namespace) (tv : list event) (p : pathlib.Path) (b : string) :
  test2_py.validate_inputs w (test2_py.file args) (image_mode args) = (tv, Returned p) →
  str.or_ (test2_py.bucket args) (AWS_BUCKET_NAME (settings w)) = Some b →
  b ≠ "" →
  let k := test2_py.build_s3_key p (test2_py.key args) (test2_py.folder args) in
  let ct := test2_py.infer_content_type db p in
  let head := tv ++ [configuration_line w b; announced ct b k; called p ct b k] in
  match s3_upload_file w (pathlib.to_str p) b k {[ "ContentType" := ct ]} with
  | None =>
      test2_py.main w db args
      = (head ++ [Log SUCCESS ("Upload complete: " +:+ location b k)]
              ++ (if image_mode args then endpoint_hint k (pathlib.name p) b else []),
         Returned tt)
  | Some e =>
      test2_py.main w db args
      = (head ++ [Log ERROR ("Upload failed: " +:+ e)], Exited 1)
  end.
Proof.
  intros Hv Hb Hne k ct head.
  rewrite (test2_py_main_passes w db args tv p b) by done.
  fold k. rewrite test2_py_upload. fold ct. unfold head.
  destruct (s3_upload_file _ _ _ _ _); cbn [trace result fst snd];
    by rewrite <- !(assoc_L (++)).
Qed.

Lemma test2_py_main_in_order_witness :
  test2_py.validate_inputs sample.calm "a.png"
    (image_mode (test2_py.mkNamespace "a.png" None (Some "img") (Some "media") false))
  = ([], Returned (pathlib.parse "/srv/a.png"))
  ∧ str.or_ (Some "media") (AWS_BUCKET_NAME (settings sample.calm)) = Some "media"
  ∧ "media" ≠ ""
  ∧ trace (test2_py.main sample.calm (test2_py.registry sample.calm)
             (test2_py.mkNamespace "a.png" None (Some "img") (Some "media") false))
    = [configuration_line sample.calm "media";
       announced "image/png" "media" "img/a.png";
       called (pathlib.parse "/srv/a.png") "image/png" "media" "img/a.png";
       Log SUCCESS "Upload complete: s3://media/img/a.png"]
      ++ endpoint_hint "img/a.png" "a.png" "media".
Proof.
  split; [reflexivity|]. split; [reflexivity|]. split; [done|].
  pose proof (test2_py_main_in_order sample.calm (test2_py.registry sample.calm)
                (test2_py.mkNamespace "a.png" None (Some "img") (Some "media") false)
                _ _ "media" eq_refl eq_refl ltac:(done)) as H.
  cbv zeta in H. cbn [s3_upload_file sample.calm] in H. by rewrite H.
Defined.

(** X9: the way [main] ends once [parse_args] has returned, in a run in
    which the path resolves, [exists()] and [is_file()] answer and the
    transfer returns or raises an [Exception].  Either script ends normally
    exactly when [exists()] and [is_file()] answer [True], (for [test2.py] in
    image mode) the resolved extension is a supported one, a non-empty bucket
    name is found and the transfer returns; in every other such run it ends
    with status 1.  The success line is logged exactly when the run ends
    normally. *)
Theorem main_exit_status (w : World) (db : mimetypes.MimeTypes) :
  (∀ args,
     let p := resolve w (test_py.file args) in
     let b := str.or_ (test_py.bucket args) (AWS_BUCKET_NAME (settings w)) in
     let k := test_py.build_s3_key p (test_py.key args) in
     let ct := test_py.infer_content_type db p in
     let ok := exists_ w p && is_file w p && str.truthy_opt b
               && bool_decide (s3_upload_file w (pathlib.to_str p) (default "" b) k
                                 {[ "ContentType" := ct ]} = None) in
     result (test_py.main w db args) = (if ok then Returned tt else Exited 1)
     ∧ success_lines (trace (test_py.main w db args))
       = (if ok then ["Upload complete: " +:+ location (default "" b) k] else []))
  ∧ (∀ args,
       let p := resolve w (test2_py.file args) in
       let b := str.or_ (test2_py.bucket args) (AWS_BUCKET_NAME (settings w)) in
       let k := test2_py.build_s3_key p (test2_py.key args) (test2_py.folder args) in
       let ct := test2_py.infer_content_type db p in
       let ok := exists_ w p && is_file w p
                 && (negb (image_mode args)
                     || bool_decide (str.lower (pathlib.suffix p)
                                     ∈ test2_py.SUPPORTED_IMAGE_EXTENSIONS))
                 && str.truthy_opt b
                 && bool_decide (s3_upload_file w (pathlib.to_str p) (default "" b) k
                                   {[ "ContentType" := ct ]} = None) in
       result (test2_py.main w db args) = (if ok then Returned tt else Exited 1)
       ∧ success_lines (trace (test2_py.main w db args))
         = (if ok then ["Upload complete: " +:+ location (default "" b) k] else [])).
Proof.
  split; intros args p b k ct.
  - destruct (exists_ w p) eqn:He.
    2:{ rewrite (test_py_main_stops w db args _ 1
                   (proj1 (validate_inputs_missing w (test_py.file args) false He))).
        done. }
    destruct (is_file w p) eqn:Hf.
    2:{ rewrite (test_py_main_stops w db args _ 1
                   (proj1 (validate_inputs_not_a_file w (test_py.file args) false He Hf))).
        done. }
    destruct (validate_document_passes w (test_py.file args) He Hf)
      as (tv & Hv & _ & _ & Hs).
    destruct (str.truthy_opt b) eqn:Hb.
    2:{ rewrite (test_py_main_without_bucket w db args tv p) by done.
        cbn [result trace fst snd andb]. rewrite success_lines_app, Hs. done. }
    destruct (truthy_opt_Some b Hb) as (b' & Hb' & Hne).
    rewrite (test_py_main_continues w db args tv p b') by done.
    fold k. rewrite test_py_upload. fold ct. rewrite Hb'. cbn [default from_option id].
    destruct (s3_upload_file _ _ _ _ _); cbn [result trace fst snd andb];
      rewrite success_lines_app, Hs; done.
  - set (is_image := image_mode args) in *.
    destruct (exists_ w p) eqn:He.
    2:{ rewrite (test2_py_main_halts w db args _ 1
                   (proj2 (validate_inputs_missing w (test2_py.file args) is_image He))).
        done. }
    destruct (is_file w p) eqn:Hf.
    2:{ rewrite (test2_py_main_halts w db args _ 1
                   (proj2 (validate_inputs_not_a_file w (test2_py.file args) is_image
                             He Hf))).
        done. }
    cbn [andb].
    assert (Hmode :
      (negb is_image
       || bool_decide (str.lower (pathlib.suffix p) ∈ test2_py.SUPPORTED_IMAGE_EXTENSIONS)
       = false
       ∧ ∃ msg, test2_py.validate_inputs w (test2_py.file args) is_image
                = ([Log ERROR msg], Exited 1))
      ∨ (negb is_image
         || bool_decide (str.lower (pathlib.suffix p) ∈ test2_py.SUPPORTED_IMAGE_EXTENSIONS)
         = true
         ∧ ∃ tv, test2_py.validate_inputs w (test2_py.file args) is_image
                 = (tv, Returned p) ∧ success_lines tv = [])).
    { destruct is_image; cbn [negb orb].
      - case_bool_decide as Hs.
        + right. split; [done|]. exists [].
          by rewrite (validate_image_supported w (test2_py.file args) He Hf Hs).
        + left. split; [done|].
          apply (validate_image_unsupported w (test2_py.file args) He Hf Hs).
      - right. split; [done|].
        destruct (validate_document_passes w (test2_py.file args) He Hf)
          as (tv & _ & Hv & _ & Hs).
        by exists tv. }
    destruct Hmode as [[-> [msg Hv]]|[-> (tv & Hv & Hs)]].
    { by rewrite (test2_py_main_halts w db args _ 1 Hv). }
    destruct (str.truthy_opt b) eqn:Hb.
    2:{ rewrite (test2_py_main_no_bucket w db args tv p) by done.
        cbn [result trace fst snd andb]. rewrite success_lines_app, Hs. done. }
    destruct (truthy_opt_Some b Hb) as (b' & Hb' & Hne).
    rewrite (test2_py_main_passes w db args tv p b') by done.
    fold k. rewrite test2_py_upload. fold ct. rewrite Hb'. cbn [default from_option id].
    destruct (s3_upload_file _ _ _ _ _); cbn [result trace fst snd andb].
    + by rewrite success_lines_app, Hs.
    + rewrite success_lines_app, Hs. subst is_image.
      by destruct (image_mode args).
Qed.

(** X10: [test2.py] takes the mode from the path as typed and checks the
    extension of the path as resolved.  Without [--image], a typed image
    name that resolves to a file with another extension ends the run with
    status 1 and no upload; a typed name that is no image name and resolves
    to an image file is handled as a document: one warning, the upload, and
    no endpoint block. *)
Theorem mode_from_typed_path (w : World) (db : mimetypes.MimeTypes)
    (args : test2_py.Namespace) :
  let typed := str.lower (pathlib.suffix (pathlib.parse (test2_py.file args))) in
  let p := resolve w (test2_py.file args) in
  let resolved := str.lower (pathlib.suffix p) in
  test2_py.image args = false →
  exists_ w p = true →
  is_file w p = true →
  (typed ∈ test2_py.SUPPORTED_IMAGE_EXTENSIONS →
   resolved ∉ test2_py.SUPPORTED_IMAGE_EXTENSIONS →
   result (test2_py.main w db args) = Exited 1
   ∧ upload_calls (trace (test2_py.main w db args)) = []
   ∧ ∃ msg, trace (test2_py.main w db args) = [Log ERROR msg])
  ∧ (typed ∉ test2_py.SUPPORTED_IMAGE_EXTENSIONS →
     resolved ∈ test2_py.SUPPORTED_IMAGE_EXTENSIONS →
     ∀ b, str.or_ (test2_py.bucket args) (AWS_BUCKET_NAME (settings w)) = Some b →
          b ≠ "" →
          let k := test2_py.build_s3_key p (test2_py.key args) (test2_py.folder args) in
          let ct := test2_py.infer_content_type db p in
          s3_upload_file w (pathlib.to_str p) b k {[ "ContentType" := ct ]} = None →
          test2_py.main w db args
          = ([Log WARNING "The specified file does not have a .pdf extension.";
              configuration_line w b; announced ct b k; called p ct b k;
              Log SUCCESS ("Upload complete: " +:+ location b k)],
             Returned tt)).
Proof.
  intros typed p resolved Hflag He Hf. split.
  - intros Ht Hr.
    assert (Hm : image_mode args = true).
    { unfold image_mode. rewrite Hflag. by apply bool_decide_eq_true_2. }
    destruct (validate_image_unsupported w (test2_py.file args) He Hf Hr) as [msg Hv].
    rewrite <- Hm in Hv. rewrite (test2_py_main_halts w db args _ 1 Hv). eauto.
  - intros Ht Hr b Hb Hne k ct Hok.
    assert (Hm : image_mode args = false).
    { unfold image_mode. rewrite Hflag. by apply bool_decide_eq_false_2. }
    assert (Hpdf : resolved ≠ ".pdf").
    { intros E. unfold resolved in *. rewrite E in Hr. by apply pdf_unsupported. }
    destruct (validate_document_other w (test2_py.file args) He Hf Hpdf) as [_ Hv].
    rewrite <- Hm in Hv.
    rewrite (test2_py_main_passes w db args _ p b Hv Hb Hne).
    rewrite test2_py_upload. fold p k ct. rewrite Hok, Hm. cbn [result trace fst snd].
    by rewrite (right_id_L [] (++)).
Qed.

Lemma mode_from_typed_path_witness :
  test2_py.image (test2_py.mkNamespace "pic.png" None (Some "img") None false) = false
  ∧ exists_ scene.linked (resolve scene.linked "pic.png") = true
  ∧ is_file scene.linked (resolve scene.linked "pic.png") = true
  ∧ pathlib.suffix (resolve scene.linked "pic.png") = ".bin"
  ∧ result (test2_py.main scene.linked (test2_py.registry scene.linked)
              (test2_py.mkNamespace "pic.png" None (Some "img") None false)) = Exited 1.
Proof.
  split; [reflexivity|]. split; [reflexivity|]. split; [reflexivity|].
  split; [reflexivity|].
  refine (proj1 (proj1 (mode_from_typed_path scene.linked (test2_py.registry scene.linked)
                          (test2_py.mkNamespace "pic.png" None (Some "img") None false)
                          eq_refl eq_refl eq_refl) _ _)).
  - apply (bool_decide_unpack _). vm_compute. exact I.
  - apply (bool_decide_unpack _). vm_compute. exact I.
Defined.

Example typed_document_resolving_to_image :
  test2_py.main scene.linked_image (test2_py.registry scene.linked_image)
    (test2_py.mkNamespace "scan.pdf" None (Some "docs") None false)
  = ([Log WARNING "The specified file does not have a .pdf extension.";
      configuration_line scene.linked_image "vault";
      announced "image/png" "vault" "docs/photo.png";
      called (pathlib.parse "/data/photo.png") "image/png" "vault" "docs/photo.png";
      Log SUCCESS "Upload complete: s3://vault/docs/photo.png"],
     Returned tt).
Proof. vm_compute. reflexivity. Qed.

Section suffix_facts.
Import pathlib.
Implicit Types (s t a e : string) (c x y : ascii).

Lemma rfind_split s c :
  0 ≤ str.rfind s c →
  ∃ a e, s = a +:+ String c e ∧ str.len a = str.rfind s c ∧ str.contains e c = false.
Proof.
  induction s as [|x s IH]; [done|]. cbn [str.rfind]. cbv zeta.
  destruct (Z.leb_spec 0 (str.rfind s c)) as [Hr|Hr].
  - intros _. destruct (IH Hr) as (a & e & -> & Hlen & He).
    exists (String x a), e. rewrite sapp_cons, len_cons. by rewrite Hlen.
  - case_bool_decide as Hx; [|done]. intros _. subst x.
    exists "", s. repeat split.
    destruct (str.contains s c) eqn:E; [|done].
    assert (0 ≤ str.rfind s c); [|lia].
    clear -E. induction s as [|y s IH]; [done|].
    cbn [str.contains] in E. cbn [str.rfind]. cbv zeta.
    destruct (Z.leb_spec 0 (str.rfind s c)); [lia|].
    apply orb_true_iff in E as [E|E]; [by rewrite E|].
    specialize (IH E). lia.
Qed.

(** A path with a suffix has a name made of a non-empty stem and that
    suffix, which is a dot and dot-free text. *)
Lemma suffix_shape (p : Path) :
  suffix p ≠ "" →
  ∃ stem e, name p = stem +:+ String "." e ∧ suffix p = String "." e
            ∧ stem ≠ "" ∧ str.contains e "." = false.
Proof.
  unfold suffix. set (n := name p).
  destruct (Z.ltb_spec 0 (str.rfind n ".")) as [Hi|]; [|done].
  destruct (_ <? _); [|done]. cbn [andb]. intros _.
  destruct (rfind_split n ".") as (a & e & Hn & Hlen & He); [lia|].
  exists a, e. rewrite <- Hlen. rewrite Hn at 2. rewrite slice_from_app.
  repeat split; [done| |done].
  intros ->. change (str.len "") with 0 in Hlen. lia.
Qed.

Lemma lstrip_keeps s c : str.startswith s c = false → str.lstrip s c = s.
Proof. destruct s as [|x s]; [done|]. cbn. by intros ->. Qed.

Lemma startswith_stem s t c :
  s ≠ "" → str.startswith (s +:+ t) c = false → str.lstrip s c ≠ "".
Proof.
  intros Hs. rewrite startswith_app by done. intros H.
  by rewrite lstrip_keeps.
Qed.

(** No key of the two alias tables lowers to a supported image extension. *)
Lemma aliases_miss_images ext :
  str.lower ext ∈ test2_py.SUPPORTED_IMAGE_EXTENSIONS →
  mimetypes.suffix_map !! str.lower ext = None
  ∧ mimetypes.encodings_map !! ext = None.
Proof.
  intros H. split.
  - unfold test2_py.SUPPORTED_IMAGE_EXTENSIONS in H.
    rewrite !elem_of_union, !elem_of_singleton in H.
    repeat destruct H as [H|H]; by rewrite H.
  - destruct (mimetypes.encodings_map !! ext) as [v|] eqn:E; [|done].
    apply encodings_map_keys in E. exfalso. revert H.
    repeat (apply elem_of_cons in E as [->|E]);
      try (apply (bool_decide_unpack _); vm_compute; exact I).
    by apply elem_of_nil in E.
Qed.
End suffix_facts.

(** X11: the [add_type] calls of the two scripts.  Under [test2.py] the
    seven registered extensions have the registered types whatever the
    interpreter's table held for them, under [test.py] [.pdf] has; every other
    extension keeps what the interpreter's table holds. *)
Theorem registry_lookup (w : World) (ext : string) :
  (∀ type,
     (ext, type) ∈ [(".pdf", "application/pdf"); (".png", "image/png");
                    (".jpg", "image/jpeg"); (".jpeg", "image/jpeg");
                    (".gif", "image/gif"); (".webp", "image/webp");
                    (".bmp", "image/bmp")] →
     mimetypes.types_map (test2_py.registry w) !! ext = Some type)
  ∧ (ext ∉ [".pdf"; ".png"; ".jpg"; ".jpeg"; ".gif"; ".webp"; ".bmp"] →
     mimetypes.types_map (test2_py.registry w) !! ext = system_types w !! ext)
  ∧ mimetypes.types_map (test_py.registry w) !! ".pdf" = Some "application/pdf"
  ∧ (ext ≠ ".pdf" →
     mimetypes.types_map (test_py.registry w) !! ext = system_types w !! ext).
Proof.
  unfold test_py.registry, test2_py.registry, mimetypes.add_type.
  cbn [mimetypes.types_map]. repeat split.
  - intros type H.
    repeat (apply elem_of_cons in H as [[= -> ->]|H]; [by simplify_map_eq|]).
    by apply elem_of_nil in H.
  - intros H. rewrite !not_elem_of_cons in H.
    destruct H as (? & ? & ? & ? & ? & ? & ? & _). by simplify_map_eq.
  - by simplify_map_eq.
  - intros H. by simplify_map_eq.
Qed.

(** X12: a file that image-mode validation lets through, and whose name does
    not begin with a dot, is uploaded by [test2.py] with the image type
    registered for its extension, whatever the letter case of the extension
    and whatever the interpreter's table holds. *)
Theorem validated_image_content_type (w : World) (local_path : string)
    (p : pathlib.Path) :
  result (test2_py.validate_inputs w local_path true) = Returned p →
  str.startswith (pathlib.name p) "." = false →
  mimetypes.no_scheme (pathlib.to_str p) = true →
  ∃ type,
    (str.lower (pathlib.suffix p), type)
      ∈ [(".png", "image/png"); (".jpg", "image/jpeg"); (".jpeg", "image/jpeg");
         (".gif", "image/gif"); (".webp", "image/webp"); (".bmp", "image/bmp")]
    ∧ test2_py.infer_content_type (test2_py.registry w) p = type.
Proof.
  intros Hv Hdot _.
  assert (p = resolve w local_path
          ∧ str.lower (pathlib.suffix p) ∈ test2_py.SUPPORTED_IMAGE_EXTENSIONS)
    as [-> Hs].
  { revert Hv. unfold test2_py.validate_inputs.
    destruct (exists_ _ _); [|done]. destruct (is_file _ _); [|done].
    case_bool_decide; proc_run; [|done]. by intros [= <-]. }
  unfold resolve in *. set (s := realpath w local_path) in *.
  destruct (suffix_shape (pathlib.parse s)) as (stem & e & Hname & Hsfx & Hstem & He).
  { intros E. rewrite E in Hs. revert Hs.
    apply (bool_decide_unpack _). vm_compute. exact I. }
  rewrite Hname in Hdot. apply (startswith_stem _ _ _ Hstem) in Hdot.
  rewrite Hsfx in *.
  destruct (aliases_miss_images _ Hs) as [Hsuf Henc].
  change test2_py.infer_content_type with test_py.infer_content_type.
  rewrite (infer_by_table s stem _ Hname Hdot _ e eq_refl He Hsuf Henc).
  unfold test2_py.SUPPORTED_IMAGE_EXTENSIONS in Hs.
  rewrite !elem_of_union, !elem_of_singleton in Hs.
  unfold test2_py.registry, mimetypes.add_type. cbn [mimetypes.types_map].
  repeat destruct Hs as [Hs|Hs]; rewrite Hs; simplify_map_eq;
    eexists; (split; [|reflexivity]); set_solver.
Qed.

Lemma validated_image_content_type_witness :
  result (test2_py.validate_inputs sample.calm "Chart.JPG" true)
  = Returned (pathlib.parse "/srv/Chart.JPG")
  ∧ str.startswith (pathlib.name (pathlib.parse "/srv/Chart.JPG")) "." = false
  ∧ mimetypes.no_scheme (pathlib.to_str (pathlib.parse "/srv/Chart.JPG")) = true
  ∧ ∃ type,
      (str.lower (pathlib.suffix (pathlib.parse "/srv/Chart.JPG")), type)
        ∈ [(".png", "image/png"); (".jpg", "image/jpeg"); (".jpeg", "image/jpeg");
           (".gif", "image/gif"); (".webp", "image/webp"); (".bmp", "image/bmp")]
      ∧ test2_py.infer_content_type (test2_py.registry sample.calm)
          (pathlib.parse "/srv/Chart.JPG") = type.
Proof.
  split; [reflexivity|]. split; [reflexivity|]. split; [reflexivity|].
  exact (validated_image_content_type sample.calm "Chart.JPG"
           (pathlib.parse "/srv/Chart.JPG") eq_refl eq_refl eq_refl).
Defined.

Section compressed_facts.
Implicit Types (s t pre stem e : string) (c : ascii).

Lemma splitext_stem pre stem e :
  str.contains stem "/" = false →
  str.lstrip stem "." ≠ "" →
  str.contains e "/" = false →
  str.contains e "." = false →
  posixpath.splitext (pre +:+ stem +:+ String "." e) = (pre +:+ stem, String "." e).
Proof.
  intros Hsep Hstem He1 He2.
  destruct (lstrip_suffix stem ".") as [d Hd].
  destruct (str.lstrip stem ".") as [|a r] eqn:El; [done|].
  apply lstrip_head in El. rewrite Hd in *.
  rewrite contains_app in Hsep. apply orb_false_iff in Hsep as [_ Hsep].
  cbn [str.contains] in Hsep. apply orb_false_iff in Hsep as [Ha Hr].
  apply bool_decide_eq_false_1 in Ha.
  rewrite <- !sapp_assoc, (sapp_assoc (pre +:+ d)).
  by apply splitext_ext.
Qed.

Lemma lstrip_app_nonempty s t c : str.lstrip s c ≠ "" → str.lstrip (s +:+ t) c ≠ "".
Proof.
  induction s as [|a s IH]; [done|]. rewrite sapp_cons. cbn [str.lstrip].
  by case_bool_decide.
Qed.
End compressed_facts.

(** X13: [infer_content_type] drops the encoding that [guess_type] finds.
    For a path without a URL scheme whose name is a stem that is not made of
    dots only, then [.pdf] in any letter case, then one of the encoding
    suffixes [.gz], [.Z], [.bz2], [.xz], [.br], [guess_type] gives the type
    [application/pdf] with an encoding, and [infer_content_type] gives
    [application/pdf] under both scripts' registries. *)
Theorem compressed_pdf_content_type (w : World) (s stem ext enc : string) :
  let file_path := pathlib.parse s in
  mimetypes.no_scheme (pathlib.to_str file_path) = true →
  pathlib.name file_path = stem +:+ ext +:+ enc →
  str.lstrip stem "." ≠ "" →
  str.lower ext = ".pdf" →
  enc ∈ [".gz"; ".Z"; ".bz2"; ".xz"; ".br"] →
  (∃ encoding, mimetypes.guess_type (test_py.registry w) (pathlib.to_str file_path)
               = (Some "application/pdf", Some encoding))
  ∧ test_py.infer_content_type (test_py.registry w) file_path = "application/pdf"
  ∧ test2_py.infer_content_type (test2_py.registry w) file_path = "application/pdf".
Proof.
  cbv zeta. intros _ Hname Hstem Hext Henc.
  destruct (lower_ext_shape ext "pdf" Hext eq_refl) as (e1 & -> & He1).
  destruct (aliases_miss _ (or_introl Hext)) as [_ Hnoenc].
  pose proof (name_no_sep s) as Hsep. rewrite Hname in Hsep.
  rewrite !contains_app in Hsep.
  apply orb_false_iff in Hsep as [Hs1 Hsep]. apply orb_false_iff in Hsep as [Hs2 Hs3].
  cbn [str.contains] in Hs2. apply orb_false_iff in Hs2 as [_ Hs2].
  destruct (to_str_name (pathlib.parse s)) as [pre Hpre].
  { rewrite Hname. destruct stem; [done|]. by rewrite sapp_cons. }
  assert (Hguess : ∀ db, ∃ encoding,
    mimetypes.guess_type db (pathlib.to_str (pathlib.parse s))
    = (mimetypes.types_map db !! ".pdf", Some encoding)).
  { intros db. unfold mimetypes.guess_type. rewrite Hpre, Hname.
    assert (∃ e2 encoding, enc = String "." e2 ∧ str.contains e2 "." = false
              ∧ mimetypes.suffix_map !! str.lower enc = None
              ∧ mimetypes.encodings_map !! enc = Some encoding)
      as (e2 & encoding & -> & He2 & Hsuf & Hcode).
    { repeat (apply elem_of_cons in Henc as [->|Henc]);
        [by eexists _, _..|by apply elem_of_nil in Henc]. }
    cbn [str.contains] in Hs3. apply orb_false_iff in Hs3 as [_ Hs3].
    rewrite <- (sapp_assoc stem).
    rewrite (splitext_stem pre (stem +:+ String "." e1) e2); [| |by apply lstrip_app_nonempty|done..].
    2:{ rewrite contains_app, Hs1. cbn [str.contains]. by rewrite Hs2. }
    unfold mimetypes.suffix_rounds. rewrite suffix_loop_stop by done.
    rewrite Hcode, (splitext_stem pre stem e1) by done.
    exists encoding. by rewrite Hext. }
  split; [|split].
  - destruct (Hguess (test_py.registry w)) as [encoding ->]. exists encoding.
    unfold test_py.registry, mimetypes.add_type. cbn [mimetypes.types_map].
    by simplify_map_eq.
  - unfold test_py.infer_content_type.
    destruct (Hguess (test_py.registry w)) as [encoding ->].
    unfold test_py.registry, mimetypes.add_type. cbn [mimetypes.types_map].
    by simplify_map_eq.
  - unfold test2_py.infer_content_type.
    destruct (Hguess (test2_py.registry w)) as [encoding ->].
    unfold test2_py.registry, mimetypes.add_type. cbn [mimetypes.types_map].
    by simplify_map_eq.
Qed.

Lemma compressed_pdf_content_type_witness :
  mimetypes.no_scheme (pathlib.to_str (pathlib.parse "/srv/report.pdf.gz")) = true
  ∧ pathlib.name (pathlib.parse "/srv/report.pdf.gz") = "report" +:+ ".pdf" +:+ ".gz"
  ∧ str.lstrip "report" "." ≠ ""
  ∧ str.lower ".pdf" = ".pdf"
  ∧ test_py.infer_content_type (test_py.registry sample.calm)
      (pathlib.parse "/srv/report.pdf.gz") = "application/pdf".
Proof.
  split; [reflexivity|]. split; [reflexivity|]. split; [done|]. split; [reflexivity|].
  refine (proj1 (proj2 (compressed_pdf_content_type sample.calm "/srv/report.pdf.gz"
                          "report" ".pdf" ".gz" eq_refl eq_refl _ eq_refl _))).
  - done.
  - set_solver.
Defined.

(** X14: what every upload call of a run looks like.  A run calls the
    storage client at most once; the file it hands over is the resolved path,
    which exists and is a regular file (with a supported extension when
    [test2.py] is in image mode); the bucket name and the content type are
    never empty; the key is the one [build_s3_key] gives. *)
Theorem upload_call_invariants (w : World) (db : mimetypes.MimeTypes) :
  (∀ args call,
     call ∈ upload_calls (trace (test_py.main w db args)) →
     let p := resolve w (test_py.file args) in
     upload_calls (trace (test_py.main w db args)) = [call]
     ∧ exists_ w p = true ∧ is_file w p = true
     ∧ ∃ b ct, b ≠ "" ∧ ct ≠ ""
         ∧ call = (pathlib.to_str p, b, test_py.build_s3_key p (test_py.key args),
                   {[ "ContentType" := ct ]}))
  ∧ (∀ args call,
       call ∈ upload_calls (trace (test2_py.main w db args)) →
       let p := resolve w (test2_py.file args) in
       upload_calls (trace (test2_py.main w db args)) = [call]
       ∧ exists_ w p = true ∧ is_file w p = true
       ∧ (image_mode args = true →
          str.lower (pathlib.suffix p) ∈ test2_py.SUPPORTED_IMAGE_EXTENSIONS)
       ∧ ∃ b ct, b ≠ "" ∧ ct ≠ ""
           ∧ call = (pathlib.to_str p, b,
                     test2_py.build_s3_key p (test2_py.key args) (test2_py.folder args),
                     {[ "ContentType" := ct ]})).
Proof.
  split; intros args call Hin p.
  - destruct (test_py.validate_inputs w (test_py.file args)) as [tv [q|n]] eqn:Hv.
    2:{ rewrite (test_py_main_stops w db args tv n Hv) in Hin.
        pose proof (test_py_validate_logs_only w (test_py.file args)) as [Hu _].
        rewrite Hv in Hu. cbn [trace fst] in *. rewrite Hu in Hin.
        by apply elem_of_nil in Hin. }
    assert (q = p ∧ exists_ w p = true ∧ is_file w p = true) as (-> & He & Hf).
    { revert Hv. unfold test_py.validate_inputs. fold p.
      destruct (exists_ w p); [|done]. destruct (is_file w p); [|done].
      case_bool_decide; proc_run; by intros [= _ <-]. }
    destruct (str.truthy_opt (str.or_ (test_py.bucket args) (AWS_BUCKET_NAME (settings w))))
      eqn:Hb.
    2:{ rewrite (test_py_main_without_bucket w db args tv p Hv Hb) in Hin.
        pose proof (test_py_validate_logs_only w (test_py.file args)) as [Hu _].
        rewrite Hv in Hu. cbn [trace fst] in *.
        rewrite upload_calls_app, Hu in Hin. by apply elem_of_nil in Hin. }
    destruct (truthy_opt_Some _ Hb) as (b & Hb' & Hne).
    rewrite (test_py_main_calls w db args tv p b Hv Hb' Hne) in *.
    apply list_elem_of_singleton in Hin as ->.
    repeat split; [done..|]. exists b, (test_py.infer_content_type db p).
    repeat split; [done|apply infer_content_type_nonempty].
  - destruct (test2_py.validate_inputs w (test2_py.file args) (image_mode args))
      as [tv [q|n]] eqn:Hv.
    2:{ rewrite (test2_py_main_halts w db args tv n Hv) in Hin.
        pose proof (test2_py_validate_logs_only w (test2_py.file args) (image_mode args))
          as [Hu _].
        rewrite Hv in Hu. cbn [trace fst] in *. rewrite Hu in Hin.
        by apply elem_of_nil in Hin. }
    assert (q = p ∧ exists_ w p = true ∧ is_file w p = true
            ∧ (image_mode args = true →
               str.lower (pathlib.suffix p) ∈ test2_py.SUPPORTED_IMAGE_EXTENSIONS))
      as (-> & He & Hf & Hs).
    { revert Hv. unfold test2_py.validate_inputs. fold p.
      destruct (exists_ w p); [|done]. destruct (is_file w p); [|done].
      destruct (image_mode args); case_bool_decide; proc_run; try done;
        by intros [= _ <-]. }
    destruct (str.truthy_opt (str.or_ (test2_py.bucket args) (AWS_BUCKET_NAME (settings w))))
      eqn:Hb.
    2:{ rewrite (test2_py_main_no_bucket w db args tv p Hv Hb) in Hin.
        pose proof (test2_py_validate_logs_only w (test2_py.file args) (image_mode args))
          as [Hu _].
        rewrite Hv in Hu. cbn [trace fst] in *.
        rewrite upload_calls_app, Hu in Hin. by apply elem_of_nil in Hin. }
    destruct (truthy_opt_Some _ Hb) as (b & Hb' & Hne).
    rewrite (test2_py_main_calls w db args tv p b Hv Hb' Hne) in *.
    apply list_elem_of_singleton in Hin as ->.
    repeat split; [done..|]. exists b, (test2_py.infer_content_type db p).
    repeat split; [done|apply infer_content_type_nonempty].
Qed.

Section leading_slash.
Implicit Types (k f n : string).

Lemma explicit_key_leading_slash k :
  str.startswith (if str.startswith k "/" then str.slice_from k 1 else k) "/" = true
  ↔ ∃ r, k = String "/" (String "/" r).
Proof.
  destruct k as [|a k]; [split; [done|by intros [r [=]]]|].
  cbn [str.startswith]. case_bool_decide as Ha.
  - subst a. rewrite slice_from_1. destruct k as [|b k].
    + split; [done|by intros [r [=]]].
    + cbn [str.startswith]. split.
      * intros Hb%bool_decide_eq_true_1. subst b. by exists k.
      * intros [r [= -> _]]. by apply bool_decide_eq_true_2.
  - cbn [str.startswith]. rewrite bool_decide_eq_false_2 by done.
    split; [done|]. by intros [r [= -> _]].
Qed.

Lemma derived_key_leading_slash f n :
  str.startswith (str.strip f "/" +:+ "/" +:+ n) "/" = true ↔ str.strip f "/" = "".
Proof.
  pose proof (strip_spec f "/") as (_ & Hs & _).
  destruct (str.strip f "/") as [|c t]; [done|].
  rewrite sapp_cons. cbn [str.startswith] in *. by rewrite Hs.
Qed.
End leading_slash.

(** X15: exactly when the key begins with a slash.  For a parsed path the
    result of [build_s3_key] begins with a slash in two cases only: the
    explicit key begins with two slashes, or there is no explicit key and the
    folder is not empty and consists of slashes only. *)
Theorem build_s3_key_leading_slash_iff (s : string) (s3_key folder : option string) :
  (str.startswith (test2_py.build_s3_key (pathlib.parse s) s3_key folder) "/" = true
   ↔ (∃ r, s3_key = Some (String "/" (String "/" r)))
     ∨ (str.truthy_opt s3_key = false
        ∧ ∃ f, folder = Some f ∧ f ≠ "" ∧ str.strip f "/" = ""))
  ∧ (str.startswith (test_py.build_s3_key (pathlib.parse s) s3_key) "/" = true
     ↔ ∃ r, s3_key = Some (String "/" (String "/" r))).
Proof.
  assert (Hname : str.startswith (pathlib.name (pathlib.parse s)) "/" = false)
    by apply startswith_absent, name_no_sep.
  unfold test2_py.build_s3_key, test_py.build_s3_key.
  destruct (str.truthy_opt s3_key) eqn:Hk.
  - destruct s3_key as [k|]; [|done]. cbn [default from_option id].
    rewrite explicit_key_leading_slash. split.
    + split; [intros [r ->]; left; by exists r|].
      intros [[r [= ->]]|[[=] _]]. by exists r.
    + split; [intros [r ->]; by exists r|]. intros [r [= ->]]. by exists r.
  - rewrite Hname. split.
    2:{ split; [done|]. intros [r ->]. by destruct r. }
    destruct (str.truthy_opt folder) eqn:Hf.
    + destruct folder as [f|]; [|done]. cbn [default from_option id].
      rewrite derived_key_leading_slash. split.
      * intros E. right. split; [done|]. exists f. by destruct f.
      * intros [[r ->]|[_ (f' & [= <-] & _ & E)]]; [by destruct r|done].
    + rewrite Hname. split; [done|].
      intros [[r ->]|[_ (f' & -> & Hne & _)]]; [by destruct r|].
      by destruct f'.
Qed.

(** X16: exactly when the key is empty.  [build_s3_key] returns the empty
    string only for the explicit key that is a single slash, or when there is
    neither an explicit key nor a folder and the path has no name. *)
Theorem build_s3_key_empty_iff (p : pathlib.Path) (s3_key folder : option string) :
  (test2_py.build_s3_key p s3_key folder = ""
   ↔ s3_key = Some "/"
     ∨ (str.truthy_opt s3_key = false ∧ str.truthy_opt folder = false
        ∧ pathlib.name p = ""))
  ∧ (test_py.build_s3_key p s3_key = ""
     ↔ s3_key = Some "/" ∨ (str.truthy_opt s3_key = false ∧ pathlib.name p = "")).
Proof.
  unfold test2_py.build_s3_key, test_py.build_s3_key.
  destruct s3_key as [[|a k]|]; py_truth.
  2:{ cbn [str.startswith]. case_bool_decide as Ha.
      - subst a. rewrite slice_from_1.
        split; (split; [intros ->; by left|intros [[= ->]|[[=] _]]; done]).
      - split; (split; [done|intros [[= -> _]|[[=] _]]; done]). }
  all: split; [|split; [intros ->; by right|intros [[=]|[_ H]]; done]].
  all: destruct folder as [[|b f]|]; py_truth.
  all: try (split; [intros ->; by right|intros [[=]|(_ & _ & H)]; done]).
  all: split; [|intros [[=]|(_ & [=] & _)]].
  all: intros H; exfalso; revert H;
    destruct (str.strip (String b f) "/"); [rewrite sapp_nil_l|]; by rewrite sapp_cons.
Qed.

Section agreement.
Variables (w : World) (db : mimetypes.MimeTypes).

Lemma validate_inputs_document_same local_path :
  test2_py.validate_inputs w local_path false = test_py.validate_inputs w local_path.
Proof. reflexivity. Qed.
End agreement.

(** X17: [test2.py] in document mode is [test.py].  When the file is not
    taken for an image and either an explicit key is given or the folder is
    empty, [test2.py]'s [main] logs, calls and ends exactly as [test.py]'s
    [main] does on the same file, key and bucket. *)
Theorem document_mode_agrees_with_test_py (w : World) (db : mimetypes.MimeTypes)
    (args : test2_py.Namespace) :
  image_mode args = false →
  str.truthy_opt (test2_py.key args) = true ∨ str.truthy_opt (test2_py.folder args) = false →
  test2_py.main w db args
  = test_py.main w db
      (test_py.mkNamespace (test2_py.file args) (test2_py.key args) (test2_py.bucket args)).
Proof.
  intros Hm Hk.
  set (args1 := test_py.mkNamespace _ _ _).
  assert (Hkey : ∀ p, test2_py.build_s3_key p (test2_py.key args) (test2_py.folder args)
                      = test_py.build_s3_key p (test2_py.key args)).
  { intros p. unfold test2_py.build_s3_key, test_py.build_s3_key.
    destruct Hk as [-> | Hf]; [done|]. rewrite Hf. by destruct (str.truthy_opt _). }
  pose proof (validate_inputs_document_same w (test2_py.file args)) as Hsame.
  rewrite <- Hm in Hsame.
  destruct (test_py.validate_inputs w (test2_py.file args)) as [tv [p|n]] eqn:Hv.
  2:{ rewrite (test2_py_main_halts w db args tv n Hsame).
      by rewrite (test_py_main_stops w db args1 tv n Hv). }
  destruct (str.truthy_opt (str.or_ (test2_py.bucket args) (AWS_BUCKET_NAME (settings w))))
    eqn:Hb.
  2:{ rewrite (test2_py_main_no_bucket w db args tv p Hsame Hb).
      by rewrite (test_py_main_without_bucket w db args1 tv p Hv Hb). }
  destruct (truthy_opt_Some _ Hb) as (b & Hb' & Hne).
  rewrite (test2_py_main_passes w db args tv p b Hsame Hb' Hne).
  rewrite (test_py_main_continues w db args1 tv p b Hv Hb' Hne).
  rewrite Hkey, test2_py_upload, test_py_upload, Hm.
  change (test_py.key args1) with (test2_py.key args).
  change test2_py.infer_content_type with test_py.infer_content_type.
  destruct (s3_upload_file _ _ _ _ _); cbn [result trace fst snd]; [done|].
  by rewrite (right_id_L [] (++)).
Qed.

Lemma document_mode_agrees_with_test_py_witness :
  image_mode (test2_py.mkNamespace "notes.txt" None (Some "") (Some "media") false) = false
  ∧ (str.truthy_opt None = true ∨ str.truthy_opt (Some "") = false)
  ∧ test2_py.main sample.calm (test_py.registry sample.calm)
      (test2_py.mkNamespace "notes.txt" None (Some "") (Some "media") false)
    = test_py.main sample.calm (test_py.registry sample.calm)
        (test_py.mkNamespace "notes.txt" None (Some "media")).
Proof.
  split; [reflexivity|]. split; [by right|].
  exact (document_mode_agrees_with_test_py sample.calm (test_py.registry sample.calm)
           (test2_py.mkNamespace "notes.txt" None (Some "") (Some "media") false)
           eq_refl (or_intror eq_refl)).
Defined.
